(** * Verification of the spam-analysis API endpoint

    Shallow embedding of [src/pages/api/wayback/analyze-spam.js]: the
    Next.js handler that validates a request, normalises the stop words,
    delegates to [waybackAdapter.analyzeDomainsForSpam] and builds the
    summary.

    The handler is modelled as a function from a request and the state of
    the Node process to a response and the new state.  The module-level
    [domainStatuses] map, the console and the system clock live in the
    process state ([World]); the request-local [logs] array is threaded
    next to it by a small state monad ([Act]).  Exceptions are explicit
    ([Completion]).

    [handler] is the request served alone, from its first statement to its
    response.  The handler is an [async] function: it is suspended at the
    [await] of line 55 while the engine works, and other requests may run
    in between.  [begin] and [advance] are the handler cut at that point,
    [runSchedule] interleaves the steps of several requests on the one
    process state, and [handler] is shown to be the schedule in which
    nothing comes in between.

    The code imported from [src/lib/adapters/wayback/] (the analysis engine
    and the stop-word utilities) is outside this file's source and enters
    as Section variables, as do the built-ins of the runtime the handler
    relies on (the clock, [Number::toString], the [TypeError]s). *)

From Stdlib Require Import PrimFloat.
From Stdlib Require FloatOps FloatAxioms SpecFloat.
From Stdlib Require Import ZArith String Ascii DecimalString.
From stdpp Require Import gmap strings list fin_maps.

Set Warnings "-register-all".

Open Scope string_scope.
Open Scope list_scope.

(** ** JavaScript values

    The request body is whatever the body parser produced: the values of
    JSON.  A number is an IEEE 754 double. *)

Inductive JSValue : Type :=
| JUndefined
| JNull
| JBool (b : bool)
| JNum (n : float)
| JStr (s : string)
| JArr (items : list JSValue)
| JObj (props : list (string * JSValue)).

(** [ToBoolean]: what [if (v)], [!v] and [v || w] test. *)
Definition truthy (v : JSValue) : bool :=
  match v with
  | JUndefined | JNull => false
  | JBool b => b
  | JNum n => negb (PrimFloat.eqb n 0 || PrimFloat.is_nan n)
  | JStr s => negb (String.eqb s "")
  | JArr _ | JObj _ => true
  end.

(** [typeof v === 'string'] *)
Definition isString (v : JSValue) : bool :=
  match v with JStr _ => true | _ => false end.

(** [Array.isArray(v)] *)
Definition isArray (v : JSValue) : bool :=
  match v with JArr _ => true | _ => false end.

(** The elements of an array value (no elements for anything else). *)
Definition arrayItems (v : JSValue) : list JSValue :=
  match v with JArr items => items | _ => [] end.

(** [a || b] *)
Definition js_or (a b : JSValue) : JSValue := if truthy a then a else b.

Fixpoint lookupProp (k : string) (props : list (string * JSValue)) : JSValue :=
  match props with
  | [] => JUndefined
  | (k', v) :: rest => if String.eqb k k' then v else lookupProp k rest
  end.

(** [v.k] for an object-coercible [v]; the handler only reads the three
    request fields, none of which a primitive or an array has. *)
Definition getProp (v : JSValue) (k : string) : JSValue :=
  match v with
  | JObj props => lookupProp k props
  | _ => JUndefined
  end.

Definition nat_to_string (n : nat) : string :=
  NilZero.string_of_uint (Nat.to_uint n).

(** Whether [k] is among the own properties of an object. *)
Fixpoint hasOwnProperty (k : string) (props : list (string * JSValue)) : bool :=
  match props with
  | [] => false
  | (k', _) :: rest => String.eqb k k' || hasOwnProperty k rest
  end.

(** [s.toUpperCase()] on ASCII letters. *)
Definition upperAscii (c : ascii) : ascii :=
  let n := nat_of_ascii c in
  if (97 <=? n)%nat && (n <=? 122)%nat then ascii_of_nat (n - 32) else c.

Fixpoint toUpperCase (s : string) : string :=
  match s with
  | EmptyString => EmptyString
  | String c rest => String (upperAscii c) (toUpperCase rest)
  end.

(** ** Data of the endpoint *)

(** A thrown value: an [Error]-like object.  [errMessage] and [errStack]
    are [None] when the property is [undefined]; [errToString] is what
    [error.toString()] returns. *)
Record JSError : Type := mkError {
  errMessage : option string;
  errStack : option string;
  errToString : string
}.

(** [`${error.message}`] *)
Definition showProp (o : option string) : string :=
  match o with Some s => s | None => "undefined" end.

(** [if (error.stack)] *)
Definition truthyProp (o : option string) : bool :=
  match o with Some s => negb (String.eqb s "") | None => false end.

(** One element of the [logs] array: [{ timestamp, type, message }]. *)
Record LogEntry : Type := mkLog {
  timestamp : string;
  type : string;
  message : string
}.

(** What the engine reports per domain.  The handler reads [domain] (the
    key of the status map) and [status] (compared with [===] against the
    five status names); the rest of the object is carried along.  A status
    that is not a string equals none of the five names, like any other
    string. *)
Record DomainStatus : Type := mkStatus {
  domain : string;
  status : string;
  detail : JSValue
}.

(** The stop-word array ([defaultStopWords] and what [combineStopWords]
    returns); the handler reads its [length]. *)
Definition StopWords : Type := list string.

Record Summary : Type := mkSummary {
  total : nat;
  clean : nat;
  suspicious : nat;
  spam : nat;
  unavailable : nat;
  no_snapshots : nat
}.

(** The four object literals passed to [res.json]. *)
Inductive Body : Type :=
| ErrorBody (error : string)
| ValidationBody (error : string) (logs : list LogEntry)
| SuccessBody (results : list DomainStatus) (summary : Summary)
    (logs : list LogEntry)
| FailureBody (error : string) (message : option string) (details : string)
    (logs : list LogEntry).

(** [res.status(code).json(body)] *)
Record Response : Type := mkResponse {
  code : nat;
  json : Body
}.

Definition bodyResults (b : Body) : option (list DomainStatus) :=
  match b with SuccessBody results _ _ => Some results | _ => None end.

Definition bodySummary (b : Body) : option Summary :=
  match b with SuccessBody _ summary _ => Some summary | _ => None end.

Definition bodyLogs (b : Body) : option (list LogEntry) :=
  match b with
  | ErrorBody _ => None
  | ValidationBody _ logs | SuccessBody _ _ logs | FailureBody _ _ _ logs =>
      Some logs
  end.

Definition bodyError (b : Body) : option string :=
  match b with
  | ErrorBody e | ValidationBody e _ | FailureBody e _ _ _ => Some e
  | SuccessBody _ _ _ => None
  end.

Definition bodyMessage (b : Body) : option string :=
  match b with FailureBody _ m _ _ => m | _ => None end.

Record Request : Type := mkRequest {
  method : string;
  body : JSValue
}.

(** ** The analysis engine, as seen from the handler

    One invocation of [analyzeDomainsForSpam] calls the two callbacks it
    was given some number of times, in some order, and then its promise
    settles: it resolves with the results or rejects with an error.

    [Resolved results] is a resolution with an array of status objects.
    A resolution with any other value makes lines 66-71 throw a [TypeError]
    inside the inner [try], before anything else is done: for the handler
    that is [Rejected] with that error. *)

Inductive EngineEvent : Type :=
| OnLog (msg : string)
| OnStatus (domainStatus : DomainStatus).

Inductive EngineOutcome : Type :=
| Resolved (results : list DomainStatus)
| Rejected (error : JSError).

Record EngineRun : Type := mkRun {
  events : list EngineEvent;
  outcome : EngineOutcome
}.

(** The arguments of one invocation (the two callbacks apart). *)
Record EngineCall : Type := mkCall {
  callDomains : JSValue;
  callStopWords : StopWords;
  callSnapshotsLimit : JSValue;
  callMaxConcurrent : Z
}.

(** ** State of the process *)

Inductive ConsoleLine : Type :=
| ConsoleLog (line : string)
| ConsoleError (label : string) (error : JSError).

(** [domainStatuses] is the module-level [Map]; [console] is what was
    printed so far; [clockReads] counts the evaluations of [new Date()];
    [engineCalls] records the invocations of the engine so far. *)
Record World : Type := mkWorld {
  domainStatuses : gmap string DomainStatus;
  console : list ConsoleLine;
  clockReads : nat;
  engineCalls : list EngineCall
}.

Definition withStatuses (m : gmap string DomainStatus) (w : World) : World :=
  mkWorld m (console w) (clockReads w) (engineCalls w).

Definition withConsole (c : list ConsoleLine) (w : World) : World :=
  mkWorld (domainStatuses w) c (clockReads w) (engineCalls w).

Definition withClockReads (n : nat) (w : World) : World :=
  mkWorld (domainStatuses w) (console w) n (engineCalls w).

Definition withEngineCalls (cs : list EngineCall) (w : World) : World :=
  mkWorld (domainStatuses w) (console w) (clockReads w) cs.

(** ** Requests in flight

    A request suspended at the [await] of line 55 holds its [logs] array;
    the engine still has [pendingEvents] to fire for it and will then
    settle as [settlement]. *)
Record Suspended : Type := mkSuspended {
  heldLogs : list LogEntry;
  pendingEvents : list EngineEvent;
  settlement : EngineOutcome
}.

Inductive Progress : Type :=
| Answered (response : Response)
| Waiting (suspended : Suspended).

(** What the event loop does next: a request arrives and runs up to its
    response or its [await], or the [i]-th request that arrived goes one
    step further. *)
Inductive Action : Type :=
| Arrive (req : Request)
| Advance (i : nat).

(** The process: its state and the requests that arrived so far, in order
    of arrival. *)
Record Server : Type := mkServer {
  world : World;
  slots : list Progress
}.

(** What is done to the status map: [domainStatuses.clear()] and
    [domainStatuses.set(domainStatus.domain, domainStatus)]. *)
Inductive StoreOp : Type :=
| Cleared
| Reported (domainStatus : DomainStatus).

(** The entry of domain [d] after [ops], when it was [entry] before. *)
Fixpoint entryAfter (d : string) (ops : list StoreOp)
    (entry : option DomainStatus) : option DomainStatus :=
  match ops with
  | [] => entry
  | Cleared :: rest => entryAfter d rest None
  | Reported domainStatus :: rest =>
      entryAfter d rest
        (if decide (domain domainStatus = d) then Some domainStatus else entry)
  end.

(** ** Actions of the handler: the process state next to the request's
    [logs] array. *)

Definition Local : Type := World * list LogEntry.

Definition Act (A : Type) : Type := Local -> A * Local.

Definition ret {A : Type} (a : A) : Act A := fun s => (a, s).

Definition bind {A B : Type} (m : Act A) (k : A -> Act B) : Act B :=
  fun s => let (a, s') := m s in k a s'.

Notation "'do' x <- m ; k" := (bind m (fun x => k))
  (at level 20, x name, m at level 100, k at level 200, only parsing).
Notation "'run' m ; k" := (bind m (fun _ => k))
  (at level 20, m at level 100, k at level 200, only parsing).

(** The result of a [try] block: a value was returned or one was thrown. *)
Inductive Completion (A : Type) : Type :=
| Normal (a : A)
| Throw (error : JSError).
Arguments Normal {A} a.
Arguments Throw {A} error.

Definition modifyWorld (f : World -> World) : Act unit :=
  fun s => (tt, (f (fst s), snd s)).

Definition readLogs : Act (list LogEntry) := fun s => (snd s, s).

(** [logs.push(entry)] *)
Definition pushLog (entry : LogEntry) : Act unit :=
  fun s => (tt, (fst s, snd s ++ [entry])).

(** [console.log(line)] *)
Definition consoleLog (line : string) : Act unit :=
  modifyWorld (fun w => withConsole (console w ++ [ConsoleLog line]) w).

(** [console.error(label, error)] *)
Definition consoleError (label : string) (error : JSError) : Act unit :=
  modifyWorld (fun w => withConsole (console w ++ [ConsoleError label error]) w).

(** [domainStatuses.clear()] *)
Definition clearStatuses : Act unit := modifyWorld (withStatuses ∅).

(** [(domainStatus) => { domainStatuses.set(domainStatus.domain, domainStatus) }] *)
Definition statusCallback (domainStatus : DomainStatus) : Act unit :=
  modifyWorld (fun w =>
    withStatuses (<[domain domainStatus := domainStatus]> (domainStatuses w)) w).

(** [results.filter(r => r.status === name).length] *)
Definition countStatus (name : string) (results : list DomainStatus) : nat :=
  length (filter (fun r => status r = name) results).

Definition summarize (results : list DomainStatus) : Summary :=
  {| total := length results;
     clean := countStatus "CLEAN" results;
     suspicious := countStatus "SUSPICIOUS" results;
     spam := countStatus "SPAM" results;
     unavailable := countStatus "UNAVAILABLE" results;
     no_snapshots := countStatus "NO_SNAPSHOTS" results |}.

(** [!domains || !Array.isArray(domains) || domains.length === 0] *)
Definition domainsRejected (domains : JSValue) : bool :=
  negb (truthy domains) || negb (isArray domains)
  || (length (arrayItems domains) =? 0)%nat.

(** [const { domains, stopWords, maxSnapshots } = req.body]: a [TypeError]
    when the body is [undefined] or [null]. *)
Definition destructure (b : JSValue) : option (JSValue * JSValue * JSValue) :=
  match b with
  | JUndefined | JNull => None
  | _ => Some (getProp b "domains", getProp b "stopWords", getProp b "maxSnapshots")
  end.

(** [maxSnapshots || 10] *)
Definition snapshotsLimitOf (maxSnapshots : JSValue) : JSValue :=
  js_or maxSnapshots (JNum 10%float).

(** ** The handler *)

Section Handler.

(** [new Date().toISOString()] at the n-th evaluation in this process. *)
Variable clock : nat -> string.

(** The exports of [stopWords.js]. *)
Variable defaultStopWords : StopWords.
Variable parseStopWords : string -> JSValue.
Variable combineStopWords : JSValue -> StopWords.

(** [waybackAdapter.analyzeDomainsForSpam]: what the n-th invocation in
    this process does when given these arguments. *)
Variable analyzeDomainsForSpam : nat -> EngineCall -> EngineRun.

(** The [TypeError] the runtime throws when [req.body], [undefined] or
    [null], is destructured. *)
Variable destructureError : JSValue -> JSError.

(** [Number::toString]: the decimal form of a double. *)
Variable numberToString : float -> string.

(** The [TypeError] the runtime throws when a value cannot be converted to
    a primitive. *)
Variable toPrimitiveError : JSValue -> JSError.

(** [ToString], as applied by a template literal [`${v}`]; [None] when it
    throws.  An array is joined with commas ([null] and [undefined]
    elements give the empty string).  An object gives "[object Object]"
    through [Object.prototype.toString] unless it has an own [toString]
    property: no value of JSON is callable, so that property and [valueOf]
    (own, or the inherited one, which returns the object) both fail to give
    a primitive, and the conversion throws. *)
Fixpoint js_to_string (v : JSValue) : option string :=
  match v with
  | JUndefined => Some "undefined"
  | JNull => Some "null"
  | JBool true => Some "true"
  | JBool false => Some "false"
  | JNum n => Some (numberToString n)
  | JStr s => Some s
  | JArr items =>
      (fix join (l : list JSValue) : option string :=
         match l with
         | [] => Some ""
         | x :: rest =>
             match (match x with
                    | JUndefined | JNull => Some ""
                    | _ => js_to_string x
                    end) with
             | None => None
             | Some sx =>
                 match rest with
                 | [] => Some sx
                 | _ :: _ =>
                     match join rest with
                     | None => None
                     | Some srest => Some (sx +:+ "," +:+ srest)
                     end
                 end
             end
         end) items
  | JObj props =>
      if hasOwnProperty "toString" props then None
      else Some "[object Object]"
  end.

Definition now : Act string :=
  fun s =>
    (clock (clockReads (fst s)),
     (withClockReads (S (clockReads (fst s))) (fst s), snd s)).

(** [const addLog = (message, type = 'info') => { ... }] *)
Definition addLog (message : string) (type : string) : Act unit :=
  do timestamp <- now;
  run pushLog {| timestamp := timestamp; type := type; message := message |};
  consoleLog ("[" +:+ toUpperCase type +:+ "] " +:+ message).

(** Lines 34-41: [let finalStopWords = defaultStopWords; if (stopWords) ...] *)
Definition finalStopWordsOf (stopWords : JSValue) : StopWords :=
  if truthy stopWords then
    match stopWords with
    | JStr s => combineStopWords (parseStopWords s)
    | JArr _ => combineStopWords stopWords
    | _ => defaultStopWords
    end
  else defaultStopWords.

(** The two callbacks handed to the engine: [(msg) => addLog(msg, 'info')]
    and [statusCallback]. *)
Definition callback (ev : EngineEvent) : Act unit :=
  match ev with
  | OnLog msg => addLog msg "info"
  | OnStatus domainStatus => statusCallback domainStatus
  end.

Fixpoint deliver (evs : list EngineEvent) : Act unit :=
  match evs with
  | [] => ret tt
  | ev :: rest => run callback ev; deliver rest
  end.

(** [waybackAdapter.analyzeDomainsForSpam(...)]: the call is recorded and
    returns the promise of its run. *)
Definition invokeEngine (call : EngineCall) : Act EngineRun :=
  fun s =>
    (analyzeDomainsForSpam (length (engineCalls (fst s))) call,
     (withEngineCalls (engineCalls (fst s) ++ [call]) (fst s), snd s)).

(** [await waybackAdapter.analyzeDomainsForSpam(...)] with nothing else
    running in between: the callbacks run as the engine fires them, and the
    promise settles. *)
Definition awaitEngine (call : EngineCall) : Act EngineOutcome :=
  do engineRun <- invokeEngine call;
  run deliver (events engineRun);
  ret (outcome engineRun).

Definition completeMessage (summary : Summary) : string :=
  "✅ Analysis complete: " +:+ nat_to_string (clean summary) +:+ " clean, "
  +:+ nat_to_string (suspicious summary) +:+ " suspicious, "
  +:+ nat_to_string (spam summary) +:+ " spam".

(** [addLog(`... ${error.message}`, 'error'); if (error.stack) addLog(...)] *)
Definition logError (prefix : string) (error : JSError) : Act unit :=
  run addLog (prefix +:+ showProp (errMessage error)) "error";
  if truthyProp (errStack error)
  then addLog ("Stack: " +:+ showProp (errStack error)) "error"
  else ret tt.

(** Lines 64-88: the inner [try] after the [await], and its [catch]. *)
Definition settle (settled : EngineOutcome) : Act (Completion Response) :=
  match settled with
  | Resolved results =>
      let summary := summarize results in
      run addLog (completeMessage summary) "success";
      do logs <- readLogs;
      ret (Normal (mkResponse 200 (SuccessBody results summary logs)))
  | Rejected error =>
      run logError "❌ Error: " error;
      ret (Throw error)
  end.

(** Lines 54-88: the inner [try]/[catch]. *)
Definition analysis (call : EngineCall) : Act (Completion Response) :=
  do settled <- awaitEngine call;
  settle settled.

Definition validationMessage : string := "domains array is required".

(** Lines 21-52: the statements of the outer [try] that precede the inner
    one.  They end with a response (the validation failed), with the
    arguments for the engine, or with an exception. *)
Definition prepare (req : Request) : Act (Completion (Response + EngineCall)) :=
  match destructure (body req) with
  | None => ret (Throw (destructureError (body req)))
  | Some (domains, stopWords, maxSnapshots) =>
      if domainsRejected domains then
        do timestamp <- now;
        ret (Normal (inl (mkResponse 400
               (ValidationBody validationMessage
                  [mkLog timestamp "error" validationMessage]))))
      else
        run clearStatuses;
        let finalStopWords := finalStopWordsOf stopWords in
        let snapshotsLimit := snapshotsLimitOf maxSnapshots in
        run addLog ("Starting spam analysis for "
                    +:+ nat_to_string (length (arrayItems domains))
                    +:+ " domain(s)") "info";
        run addLog ("Using " +:+ nat_to_string (length finalStopWords)
                    +:+ " stop words") "info";
        match js_to_string snapshotsLimit with
        | None => ret (Throw (toPrimitiveError snapshotsLimit))
        | Some text =>
            run addLog ("Max snapshots per domain: " +:+ text) "info";
            ret (Normal (inr (mkCall domains finalStopWords snapshotsLimit 3)))
        end
  end.

(** Lines 20-88: the body of the outer [try]. *)
Definition tryBlock (req : Request) : Act (Completion Response) :=
  do prepared <- prepare req;
  match prepared with
  | Normal (inl response) => ret (Normal response)
  | Normal (inr call) => analysis call
  | Throw error => ret (Throw error)
  end.

(** [error.stack || error.toString()] *)
Definition errorDetails (error : JSError) : string :=
  if truthyProp (errStack error) then showProp (errStack error)
  else errToString error.

(** Lines 89-102: the outer [catch]. *)
Definition catchBlock (error : JSError) : Act Response :=
  run logError "❌ Fatal error: " error;
  run consoleError "Spam analysis error:" error;
  do logs <- readLogs;
  ret (mkResponse 500
         (FailureBody "Spam analysis failed" (errMessage error)
            (errorDetails error) logs)).

(** How the outer [try] ends: with the response, or in the outer [catch]. *)
Definition finish (completion : Completion Response) : Act Response :=
  match completion with
  | Normal response => ret response
  | Throw error => catchBlock error
  end.

(** Everything after the method check, on the fresh [logs] array. *)
Definition serve (req : Request) : Act Response :=
  do completion <- tryBlock req;
  finish completion.

Definition handler (req : Request) (w : World) : Response * World :=
  if negb (String.eqb (method req) "POST") then
    (mkResponse 405 (ErrorBody "Method not allowed"), w)
  else
    let logs : list LogEntry := [] in
    let (response, s) := serve req (w, logs) in
    (response, fst s).

(** *** Overlapping requests *)

(** The handler from its first statement to the [await] of line 55, or to
    its response when it does not get that far. *)
Definition begin (req : Request) (w : World) : Progress * World :=
  if negb (String.eqb (method req) "POST") then
    (Answered (mkResponse 405 (ErrorBody "Method not allowed")), w)
  else
    let logs : list LogEntry := [] in
    let (prepared, s) := prepare req (w, logs) in
    match prepared with
    | Normal (inl response) => (Answered response, fst s)
    | Normal (inr call) =>
        let (engineRun, s') := invokeEngine call s in
        (Waiting (mkSuspended (snd s') (events engineRun) (outcome engineRun)),
         fst s')
    | Throw error =>
        let (response, s') := catchBlock error s in
        (Answered response, fst s')
    end.

(** One step of a suspended request: the engine fires its next callback,
    or, when it has none left, the promise settles and the handler runs
    from the [await] to its response. *)
Definition advance (r : Suspended) (w : World) : Progress * World :=
  match pendingEvents r with
  | ev :: rest =>
      let (_, s) := callback ev (w, heldLogs r) in
      (Waiting (mkSuspended (snd s) rest (settlement r)), fst s)
  | [] =>
      let (response, s) :=
        (do completion <- settle (settlement r); finish completion)
          (w, heldLogs r) in
      (Answered response, fst s)
  end.

(** One turn of the event loop. *)
Definition act (sv : Server) (a : Action) : Server :=
  match a with
  | Arrive req =>
      let (progress, w) := begin req (world sv) in
      mkServer w (slots sv ++ [progress])
  | Advance i =>
      match slots sv !! i with
      | Some (Waiting r) =>
          let (progress, w) := advance r (world sv) in
          mkServer w (<[i := progress]> (slots sv))
      | _ => sv
      end
  end.

Definition runSchedule (actions : list Action) (sv : Server) : Server :=
  foldl act sv actions.

(** A suspended request run to its response with nothing in between. *)
Fixpoint complete (fuel : nat) (progress : Progress) (w : World)
    : Progress * World :=
  match fuel, progress with
  | S fuel', Waiting r => let (progress', w') := advance r w in complete fuel' progress' w'
  | _, _ => (progress, w)
  end.

(** *** Closed forms used in the statements below *)

(** Whether the request gets as far as [domainStatuses.clear()]: it passes
    the method check, the destructuring and the validation of [domains]. *)
Definition clearsStore (req : Request) : bool :=
  String.eqb (method req) "POST"
  && match destructure (body req) with
     | Some (domains, _, _) => negb (domainsRejected domains)
     | None => false
     end.

(** What one turn of the event loop does to the status map. *)
Definition storeOpsOf (sv : Server) (a : Action) : list StoreOp :=
  match a with
  | Arrive req => if clearsStore req then [Cleared] else []
  | Advance i =>
      match slots sv !! i with
      | Some (Waiting r) =>
          match pendingEvents r with
          | OnStatus domainStatus :: _ => [Reported domainStatus]
          | _ => []
          end
      | _ => []
      end
  end.

(** What a schedule does to the status map, turn after turn. *)
Fixpoint storeOps (sv : Server) (actions : list Action) : list StoreOp :=
  match actions with
  | [] => []
  | a :: rest => storeOpsOf sv a ++ storeOps (act sv a) rest
  end.

(** The request fields of a request that reaches the engine: it passes the
    method check, the destructuring and the validation of [domains], and
    its snapshot limit can be turned into the text of line 47. *)
Definition accepted (req : Request) : option (JSValue * JSValue * JSValue) :=
  if String.eqb (method req) "POST" then
    match destructure (body req) with
    | Some (domains, stopWords, maxSnapshots) =>
        if domainsRejected domains then None
        else
          match js_to_string (snapshotsLimitOf maxSnapshots) with
          | Some _ => Some (domains, stopWords, maxSnapshots)
          | None => None
          end
    | None => None
    end
  else None.

(** The arguments the handler hands to the engine (line 55-62). *)
Definition engineCallOf (fields : JSValue * JSValue * JSValue) : EngineCall :=
  let '(domains, stopWords, maxSnapshots) := fields in
  mkCall domains (finalStopWordsOf stopWords) (snapshotsLimitOf maxSnapshots) 3.

(** The run of the engine for an accepted request arriving in state [w]. *)
Definition engineRunOf (w : World) (fields : JSValue * JSValue * JSValue)
    : EngineRun :=
  analyzeDomainsForSpam (length (engineCalls w)) (engineCallOf fields).

(** The messages the engine passes to its log callback, in order. *)
Fixpoint logMessages (evs : list EngineEvent) : list string :=
  match evs with
  | [] => []
  | OnLog msg :: rest => msg :: logMessages rest
  | OnStatus _ :: rest => logMessages rest
  end.

(** The entries [logs] gains while [evs] are delivered, the clock having
    been read [n] times before. *)
Fixpoint emitted (n : nat) (evs : list EngineEvent) : list LogEntry :=
  match evs with
  | [] => []
  | OnLog msg :: rest => mkLog (clock n) "info" msg :: emitted (S n) rest
  | OnStatus _ :: rest => emitted n rest
  end.

(** The lines the console gains while [evs] are delivered. *)
Fixpoint printed (evs : list EngineEvent) : list ConsoleLine :=
  match evs with
  | [] => []
  | OnLog msg :: rest => ConsoleLog ("[INFO] " +:+ msg) :: printed rest
  | OnStatus _ :: rest => printed rest
  end.

(** The status map after [evs] are delivered to a map [m]. *)
Fixpoint reported (evs : list EngineEvent) (m : gmap string DomainStatus)
    : gmap string DomainStatus :=
  match evs with
  | [] => m
  | OnLog _ :: rest => reported rest m
  | OnStatus domainStatus :: rest =>
      reported rest (<[domain domainStatus := domainStatus]> m)
  end.

(** The last status among [evs] reported for the domain [d]. *)
Fixpoint latest (d : string) (evs : list EngineEvent) : option DomainStatus :=
  match evs with
  | [] => None
  | ev :: rest =>
      match latest d rest with
      | Some domainStatus => Some domainStatus
      | None =>
          match ev with
          | OnStatus domainStatus =>
              if decide (domain domainStatus = d) then Some domainStatus
              else None
          | OnLog _ => None
          end
      end
  end.

(** The text of the snapshot limit in the entry of line 47. *)
Definition limitText (maxSnapshots : JSValue) : string :=
  match js_to_string (snapshotsLimitOf maxSnapshots) with
  | Some text => text
  | None => ""
  end.

(** The messages of the three entries logged before the engine starts. *)
Definition startMessages (fields : JSValue * JSValue * JSValue) : list string :=
  let '(domains, stopWords, maxSnapshots) := fields in
  [ "Starting spam analysis for "
      +:+ nat_to_string (length (arrayItems domains)) +:+ " domain(s)";
    "Using " +:+ nat_to_string (length (finalStopWordsOf stopWords))
      +:+ " stop words";
    "Max snapshots per domain: " +:+ limitText maxSnapshots ].

(** The messages [logError] logs. *)
Definition errorMessages (prefix : string) (error : JSError) : list string :=
  (prefix +:+ showProp (errMessage error))
  :: (if truthyProp (errStack error)
      then ["Stack: " +:+ showProp (errStack error)] else []).

(** [msgs] logged one after the other with [addLog(msg, type)], the clock
    having been read [n] times before. *)
Fixpoint stamp (n : nat) (type : string) (msgs : list string) : list LogEntry :=
  match msgs with
  | [] => []
  | msg :: rest => mkLog (clock n) type msg :: stamp (S n) type rest
  end.

(** The console line [addLog] prints for an entry. *)
Definition lineOf (entry : LogEntry) : ConsoleLine :=
  ConsoleLog ("[" +:+ toUpperCase (type entry) +:+ "] " +:+ message entry).

(** The entries logged up to the moment the engine's promise settles. *)
Definition runningLogs (w : World) (fields : JSValue * JSValue * JSValue)
    : list LogEntry :=
  stamp (clockReads w) "info" (startMessages fields)
  ++ emitted (clockReads w + 3) (events (engineRunOf w fields)).

(** The [logs] array when the engine resolved with [results]. *)
Definition resolvedLogs (w : World) (fields : JSValue * JSValue * JSValue)
    (results : list DomainStatus) : list LogEntry :=
  runningLogs w fields
  ++ stamp (clockReads w + length (runningLogs w fields)) "success"
       [completeMessage (summarize results)].

(** The [logs] array when the engine rejected with [error]. *)
Definition rejectedLogs (w : World) (fields : JSValue * JSValue * JSValue)
    (error : JSError) : list LogEntry :=
  runningLogs w fields
  ++ stamp (clockReads w + length (runningLogs w fields)) "error"
       (errorMessages "❌ Error: " error ++ errorMessages "❌ Fatal error: " error).

(** The [logs] array of the outer [catch] when destructuring threw. *)
Definition fatalLogs (w : World) (error : JSError) : list LogEntry :=
  stamp (clockReads w) "error" (errorMessages "❌ Fatal error: " error).

(** The [logs] array of the outer [catch] when the text of line 47 could
    not be made: the first two start entries, then the error. *)
Definition abortedLogs (w : World) (fields : JSValue * JSValue * JSValue)
    (error : JSError) : list LogEntry :=
  stamp (clockReads w) "info" (take 2 (startMessages fields))
  ++ stamp (clockReads w + 2) "error" (errorMessages "❌ Fatal error: " error).

End Handler.

(** ** A concrete process, for evaluating the handler *)

Module Sample.

Definition clock (n : nat) : string := "T" +:+ nat_to_string n.

Definition defaultStopWords : StopWords := ["casino"; "viagra"].

(** Splits on commas. *)
Fixpoint splitComma (acc : string) (s : string) : list string :=
  match s with
  | EmptyString => [acc]
  | String c rest =>
      if Ascii.eqb c ","%char then acc :: splitComma "" rest
      else splitComma (acc +:+ String c EmptyString) rest
  end.

Definition parseStopWords (s : string) : JSValue :=
  JArr (map JStr (splitComma "" s)).

Definition stringsOf (v : JSValue) : list string :=
  flat_map (fun x => match x with JStr s => [s] | _ => [] end) (arrayItems v).

Definition combineStopWords (v : JSValue) : StopWords :=
  defaultStopWords ++ stringsOf v.

Definition domainName (v : JSValue) : string :=
  match v with JStr s => s | _ => "" end.

(** An engine that reports every domain as pending and then as clean,
    unless the snapshot limit is the string ["boom"], in which case the
    promise rejects after the first log line. *)
Definition engine (n : nat) (call : EngineCall) : EngineRun :=
  match callSnapshotsLimit call with
  | JStr "boom" =>
      mkRun [OnLog "starting"]
            (Rejected (mkError (Some "archive offline") (Some "at fetch") "Error: archive offline"))
  | _ =>
      let names := map domainName (arrayItems (callDomains call)) in
      mkRun (OnLog "starting"
             :: flat_map (fun d => [OnStatus (mkStatus d "PENDING" JNull);
                                    OnStatus (mkStatus d "CLEAN" JNull)]) names)
            (Resolved (map (fun d => mkStatus d "CLEAN" JNull) names))
  end.


Definition typeError (v : JSValue) : JSError :=
  mkError (Some ("Cannot destructure property 'domains' of 'req.body' as it is "
                 +:+ match v with JNull => "null" | _ => "undefined" end
                 +:+ "."))
          (Some "TypeError") "TypeError".

Definition toPrimitiveError (v : JSValue) : JSError :=
  mkError (Some "Cannot convert object to primitive value")
          (Some "TypeError") "TypeError".

(** [Number::toString] on zero, [NaN], the infinities and the integers of
    magnitude below 2^53, which are all the numbers the requests below
    carry; other doubles are not rendered. *)
Definition numberToString (x : float) : string :=
  match FloatOps.Prim2SF x with
  | SpecFloat.S754_zero _ => "0"
  | SpecFloat.S754_nan => "NaN"
  | SpecFloat.S754_infinity false => "Infinity"
  | SpecFloat.S754_infinity true => "-Infinity"
  | SpecFloat.S754_finite negative m e =>
      let scale := (2 ^ (- e))%Z in
      if (e <=? 0)%Z && (Z.pos m mod scale =? 0)%Z then
        NilZero.string_of_int
          (Z.to_int (if negative then - (Z.pos m / scale) else Z.pos m / scale))
      else "?"
  end.

Definition handler : Request -> World -> Response * World :=
  handler clock defaultStopWords parseStopWords combineStopWords engine
    typeError numberToString toPrimitiveError.

Definition runSchedule : list Action -> Server -> Server :=
  runSchedule clock defaultStopWords parseStopWords combineStopWords engine
    typeError numberToString toPrimitiveError.

Definition idle : World := mkWorld ∅ [] 0 [].

Definition post (fields : list (string * JSValue)) : Request :=
  mkRequest "POST" (JObj fields).

Definition twoDomains : JSValue := JArr [JStr "a.example"; JStr "b.example"].

(** A well-formed request for two domains. *)
Definition plainRequest : Request := post [("domains", twoDomains)].

(** The same with stop words given as an array. *)
Definition wordsRequest : Request :=
  post [("domains", twoDomains); ("stopWords", JArr [JStr "pills"])].

(** The same with a [stopWords] that is a number. *)
Definition oddWordsRequest : Request :=
  post [("domains", twoDomains); ("stopWords", JNum 7)].

(** A request on which the sample engine rejects. *)
Definition failingRequest : Request :=
  post [("domains", twoDomains); ("maxSnapshots", JStr "boom")].



(** Requests without a usable [domains]. *)
Definition emptyRequest : Request := post [("domains", JArr [])].

Definition getRequest : Request :=
  mkRequest "GET" (JObj [("domains", JArr [])]).

Definition nullBodyRequest : Request := mkRequest "POST" JNull.

(** A request whose snapshot limit has no text: an object with an own
    [toString] property. *)
Definition unprintableRequest : Request :=
  post [("domains", twoDomains);
        ("maxSnapshots", JObj [("toString", JNum 5)])].

(** Two requests for one domain each, to be served overlapping. *)
Definition requestA : Request := post [("domains", JArr [JStr "a.example"])].
Definition requestB : Request := post [("domains", JArr [JStr "b.example"])].

(** A process that has served [plainRequest] before. *)
Definition busy : World := snd (handler plainRequest idle).

End Sample.

(** ** Properties of the pure helpers *)

(** The five status names the summary counts. *)
Definition terminalStatus (name : string) : Prop :=
  name = "CLEAN" \/ name = "SUSPICIOUS" \/ name = "SPAM"
  \/ name = "UNAVAILABLE" \/ name = "NO_SNAPSHOTS".

(** Every log entry carries one of the three levels. *)
Definition knownLevel (entry : LogEntry) : Prop :=
  type entry = "info" \/ type entry = "success" \/ type entry = "error".

(** The entries of [l] were stamped by consecutive clock readings,
    starting at the [n]-th. *)
Definition stamped (clock : nat -> string) (n : nat) (l : list LogEntry) : Prop :=
  forall i entry, l !! i = Some entry -> timestamp entry = clock (n + i).

(** An action is append-only when the [logs] array it leaves extends the
    one it found: the entries already there stay, in place and unchanged. *)
Definition appendOnly {A : Type} (m : Act A) : Prop :=
  forall s, snd s `prefix_of` snd (snd (m s)).

(** An action keeps the store when it leaves the status map as it found
    it. *)
Definition keepsStore {A : Type} (m : Act A) : Prop :=
  forall s, domainStatuses (fst (snd (m s))) = domainStatuses (fst s).

Lemma countStatus_cons name r results :
  countStatus name (r :: results)
  = (if decide (status r = name) then 1 else 0) + countStatus name results.
Proof.
  unfold countStatus. rewrite filter_cons.
  destruct (decide (status r = name)); reflexivity.
Qed.

Lemma countStatus_le name results : countStatus name results <= length results.
Proof. unfold countStatus. apply length_filter. Qed.

Lemma summary_sum_le results :
  clean (summarize results) + suspicious (summarize results)
  + spam (summarize results) + unavailable (summarize results)
  + no_snapshots (summarize results) <= length results.
Proof.
  induction results as [|r results IH]; [reflexivity|].
  cbn [summarize clean suspicious spam unavailable no_snapshots] in *.
  rewrite !countStatus_cons. cbn [length].
  repeat case_decide; try lia; congruence.
Qed.

Lemma summary_sum_terminal results :
  Forall (fun r => terminalStatus (status r)) results ->
  clean (summarize results) + suspicious (summarize results)
  + spam (summarize results) + unavailable (summarize results)
  + no_snapshots (summarize results) = length results.
Proof.
  induction 1 as [|r results Hr _ IH]; [reflexivity|].
  cbn [summarize clean suspicious spam unavailable no_snapshots] in *.
  rewrite !countStatus_cons. cbn [length].
  destruct Hr as [Hr|[Hr|[Hr|[Hr|Hr]]]]; rewrite Hr;
    repeat case_decide; try lia; congruence.
Qed.



Lemma entryAfter_app d ops1 ops2 entry :
  entryAfter d (ops1 ++ ops2) entry = entryAfter d ops2 (entryAfter d ops1 entry).
Proof.
  revert entry. induction ops1 as [|[|domainStatus] ops1 IH]; intros entry; cbn;
    [reflexivity | apply IH | apply IH].
Qed.

Lemma stamped_app clock n l1 l2 :
  stamped clock n l1 -> stamped clock (n + length l1) l2 ->
  stamped clock n (l1 ++ l2).
Proof.
  intros H1 H2 i entry Hi.
  destruct (decide (i < length l1)) as [Hlt|Hge].
  - rewrite lookup_app_l in Hi by exact Hlt. exact (H1 _ _ Hi).
  - rewrite lookup_app_r in Hi by lia.
    rewrite (H2 _ _ Hi). f_equal. lia.
Qed.

Lemma stamped_nil clock n : stamped clock n [].
Proof. intros i entry Hi. rewrite lookup_nil in Hi. discriminate. Qed.

Lemma stamped_cons clock n entry l :
  timestamp entry = clock n -> stamped clock (S n) l ->
  stamped clock n (entry :: l).
Proof.
  intros He Hl [|i] e Hi; cbn in Hi.
  - injection Hi as <-. rewrite He. f_equal. lia.
  - rewrite (Hl _ _ Hi). f_equal. lia.
Qed.

(** ** Symbolic execution of the handler *)

Section Properties.

Variable clock : nat -> string.
Variable defaultStopWords : StopWords.
Variable parseStopWords : string -> JSValue.
Variable combineStopWords : JSValue -> StopWords.
Variable analyzeDomainsForSpam : nat -> EngineCall -> EngineRun.
Variable destructureError : JSValue -> JSError.
Variable numberToString : float -> string.
Variable toPrimitiveError : JSValue -> JSError.

Local Abbreviation handler :=
  (handler clock defaultStopWords parseStopWords combineStopWords
     analyzeDomainsForSpam destructureError numberToString toPrimitiveError).
Local Abbreviation serve :=
  (serve clock defaultStopWords parseStopWords combineStopWords
     analyzeDomainsForSpam destructureError numberToString toPrimitiveError).
Local Abbreviation prepare :=
  (prepare clock defaultStopWords parseStopWords combineStopWords
     destructureError numberToString toPrimitiveError).
Local Abbreviation begin :=
  (begin clock defaultStopWords parseStopWords combineStopWords
     analyzeDomainsForSpam destructureError numberToString toPrimitiveError).
Local Abbreviation act :=
  (act clock defaultStopWords parseStopWords combineStopWords
     analyzeDomainsForSpam destructureError numberToString toPrimitiveError).
Local Abbreviation runSchedule :=
  (runSchedule clock defaultStopWords parseStopWords combineStopWords
     analyzeDomainsForSpam destructureError numberToString toPrimitiveError).
Local Abbreviation storeOps :=
  (storeOps clock defaultStopWords parseStopWords combineStopWords
     analyzeDomainsForSpam destructureError numberToString toPrimitiveError).
Local Abbreviation js_to_string := (js_to_string numberToString).
Local Abbreviation limitText := (limitText numberToString).
Local Abbreviation accepted := (accepted numberToString).
Local Abbreviation finalStopWordsOf :=
  (finalStopWordsOf defaultStopWords parseStopWords combineStopWords).
Local Abbreviation engineCallOf :=
  (engineCallOf defaultStopWords parseStopWords combineStopWords).
Local Abbreviation engineRunOf :=
  (engineRunOf defaultStopWords parseStopWords combineStopWords
     analyzeDomainsForSpam).
Local Abbreviation startMessages :=
  (startMessages defaultStopWords parseStopWords combineStopWords
     numberToString).
Local Abbreviation abortedLogs :=
  (abortedLogs clock defaultStopWords parseStopWords combineStopWords
     numberToString).

Lemma addLog_run message type w logs :
  addLog clock message type (w, logs)
  = (tt, (mkWorld (domainStatuses w)
            (console w ++ [ConsoleLog ("[" +:+ toUpperCase type +:+ "] " +:+ message)])
            (S (clockReads w)) (engineCalls w),
          logs ++ [mkLog (clock (clockReads w)) type message])).
Proof. reflexivity. Qed.

Lemma deliver_run evs : forall w logs,
  deliver clock evs (w, logs)
  = (tt, (mkWorld (reported evs (domainStatuses w))
            (console w ++ printed evs)
            (clockReads w + length (logMessages evs))
            (engineCalls w),
          logs ++ emitted clock (clockReads w) evs)).
Proof.
  induction evs as [|[msg|domainStatus] evs IH]; intros w logs.
  - destruct w. cbn. rewrite !app_nil_r, Nat.add_0_r. reflexivity.
  - cbn [deliver]. unfold bind. cbn [callback]. rewrite addLog_run, IH.
    cbn. rewrite <- !app_assoc. cbn.
    do 3 f_equal. f_equal. lia.
  - cbn [deliver]. unfold bind. cbn [callback].
    unfold statusCallback, modifyWorld. cbn [fst snd]. rewrite IH.
    reflexivity.
Qed.

Lemma deliver_app evs1 evs2 s :
  deliver clock (evs1 ++ evs2) s
  = deliver clock evs2 (snd (deliver clock evs1 s)).
Proof.
  revert s. induction evs1 as [|ev evs1 IH]; intros s; [reflexivity|].
  cbn [app deliver]. unfold bind.
  destruct (callback clock ev s) as [[] s']. apply IH.
Qed.

Lemma emitted_messages n evs :
  map message (emitted clock n evs) = logMessages evs.
Proof.
  revert n. induction evs as [|[msg|domainStatus] evs IH]; intros n; cbn;
    [reflexivity | f_equal; apply IH | apply IH].
Qed.

Lemma emitted_length n evs :
  length (emitted clock n evs) = length (logMessages evs).
Proof. rewrite <- (emitted_messages n), length_map. reflexivity. Qed.

Lemma emitted_stamped n evs : stamped clock n (emitted clock n evs).
Proof.
  revert n. induction evs as [|[msg|domainStatus] evs IH]; intros n; cbn.
  - apply stamped_nil.
  - apply stamped_cons; [reflexivity | apply IH].
  - apply IH.
Qed.

Lemma emitted_levels n evs : Forall knownLevel (emitted clock n evs).
Proof.
  revert n. induction evs as [|[msg|domainStatus] evs IH]; intros n; cbn.
  - constructor.
  - constructor; [left; reflexivity | apply IH].
  - apply IH.
Qed.

Lemma emitted_app n evs1 evs2 :
  emitted clock n (evs1 ++ evs2)
  = emitted clock n evs1
    ++ emitted clock (n + length (logMessages evs1)) evs2.
Proof.
  revert n. induction evs1 as [|[msg|domainStatus] evs1 IH]; intros n; cbn.
  - rewrite Nat.add_0_r. reflexivity.
  - rewrite IH. do 3 f_equal. lia.
  - apply IH.
Qed.

Lemma reported_lookup evs : forall m d,
  reported evs m !! d
  = match latest d evs with
    | Some domainStatus => Some domainStatus
    | None => m !! d
    end.
Proof.
  induction evs as [|[msg|domainStatus] evs IH]; intros m d; cbn.
  - reflexivity.
  - rewrite IH. destruct (latest d evs); reflexivity.
  - rewrite IH. destruct (latest d evs); [reflexivity|].
    case_decide as Hd.
    + rewrite <- Hd. apply lookup_insert_eq.
    + apply lookup_insert_ne. exact Hd.
Qed.

Lemma accepted_inv req fields :
  accepted req = Some fields ->
  method req = "POST" /\ destructure (body req) = Some fields
  /\ domainsRejected (fst (fst fields)) = false.
Proof.
  unfold accepted. destruct (String.eqb (method req) "POST") eqn:Hm; [|discriminate].
  apply String.eqb_eq in Hm.
  destruct (destructure (body req)) as [[[d sw] ms]|]; [|discriminate].
  destruct (domainsRejected d) eqn:Hd; [discriminate|].
  destruct (js_to_string (snapshotsLimitOf ms)); [|discriminate].
  intros [= <-]. auto.
Qed.

Lemma accepted_printable req fields :
  accepted req = Some fields ->
  js_to_string (snapshotsLimitOf (snd fields)) = Some (limitText (snd fields)).
Proof.
  unfold accepted, limitText.
  destruct (String.eqb (method req) "POST"); [|discriminate].
  destruct (destructure (body req)) as [[[d sw] ms]|]; [|discriminate].
  destruct (domainsRejected d); [discriminate|].
  destruct (js_to_string (snapshotsLimitOf ms)) eqn:Hp; [|discriminate].
  intros [= <-]. cbn [snd]. rewrite Hp. reflexivity.
Qed.

Local Abbreviation runningLogs :=
  (runningLogs clock defaultStopWords parseStopWords combineStopWords
     analyzeDomainsForSpam numberToString).
Local Abbreviation resolvedLogs :=
  (resolvedLogs clock defaultStopWords parseStopWords combineStopWords
     analyzeDomainsForSpam numberToString).
Local Abbreviation rejectedLogs :=
  (rejectedLogs clock defaultStopWords parseStopWords combineStopWords
     analyzeDomainsForSpam numberToString).

Lemma printed_emitted n evs : printed evs = map lineOf (emitted clock n evs).
Proof.
  revert n. induction evs as [|[msg|domainStatus] evs IH]; intros n; cbn;
    [reflexivity | f_equal; apply IH | apply IH].
Qed.

Lemma stamp_length n type msgs : length (stamp clock n type msgs) = length msgs.
Proof. revert n. induction msgs as [|m msgs IH]; intros n; cbn; [|rewrite IH]; reflexivity. Qed.

Lemma stamp_app n type l1 l2 :
  stamp clock n type (l1 ++ l2)
  = stamp clock n type l1 ++ stamp clock (n + length l1) type l2.
Proof.
  revert n. induction l1 as [|m l1 IH]; intros n; cbn.
  - rewrite Nat.add_0_r. reflexivity.
  - rewrite IH. do 3 f_equal. lia.
Qed.

Lemma logError_run prefix error w logs :
  logError clock prefix error (w, logs)
  = (tt, (mkWorld (domainStatuses w)
            (console w
             ++ map lineOf (stamp clock (clockReads w) "error" (errorMessages prefix error)))
            (clockReads w + length (errorMessages prefix error))
            (engineCalls w),
          logs ++ stamp clock (clockReads w) "error" (errorMessages prefix error))).
Proof.
  unfold logError, errorMessages, bind. rewrite addLog_run.
  destruct (truthyProp (errStack error)).
  - rewrite addLog_run. cbn. rewrite <- !app_assoc. cbn.
    do 3 f_equal. f_equal. lia.
  - cbn. do 3 f_equal. f_equal. lia.
Qed.

Lemma awaitEngine_run call w logs :
  awaitEngine clock analyzeDomainsForSpam call (w, logs)
  = let engineRun := analyzeDomainsForSpam (length (engineCalls w)) call in
    (outcome engineRun,
     (mkWorld (reported (events engineRun) (domainStatuses w))
        (console w ++ map lineOf (emitted clock (clockReads w) (events engineRun)))
        (clockReads w + length (emitted clock (clockReads w) (events engineRun)))
        (engineCalls w ++ [call]),
      logs ++ emitted clock (clockReads w) (events engineRun))).
Proof.
  unfold awaitEngine, invokeEngine, bind, withEngineCalls, ret. cbn [fst snd].
  rewrite deliver_run. cbn [domainStatuses console clockReads engineCalls].
  rewrite <- printed_emitted, emitted_length. reflexivity.
Qed.

(** The statements up to the inner [try] on a request that reaches the
    engine: the map is cleared and the three start entries are logged. *)
Lemma prepare_accepted req fields w :
  accepted req = Some fields ->
  prepare req (w, [])
  = (Normal (inr (engineCallOf fields)),
     (mkWorld ∅
        (console w
         ++ map lineOf (stamp clock (clockReads w) "info" (startMessages fields)))
        (clockReads w + 3) (engineCalls w),
      stamp clock (clockReads w) "info" (startMessages fields))).
Proof.
  intros Hacc. destruct (accepted_inv _ _ Hacc) as (Hm & Hd & Hr).
  pose proof (accepted_printable _ _ Hacc) as Hp.
  destruct fields as [[domains stopWords] maxSnapshots]. cbn [fst snd] in *.
  unfold prepare. rewrite Hd, Hr, Hp.
  unfold bind, clearStatuses, modifyWorld, ret. cbn [fst snd].
  rewrite !addLog_run. cbn. rewrite <- !app_assoc. cbn.
  do 3 f_equal. f_equal. lia.
Qed.

(** The same statements when the text of line 47 cannot be made. *)
Lemma prepare_unprintable req w domains stopWords maxSnapshots :
  destructure (body req) = Some (domains, stopWords, maxSnapshots) ->
  domainsRejected domains = false ->
  js_to_string (snapshotsLimitOf maxSnapshots) = None ->
  prepare req (w, [])
  = (Throw (toPrimitiveError (snapshotsLimitOf maxSnapshots)),
     (mkWorld ∅
        (console w
         ++ map lineOf (stamp clock (clockReads w) "info"
                          (take 2 (startMessages (domains, stopWords, maxSnapshots)))))
        (clockReads w + 2) (engineCalls w),
      stamp clock (clockReads w) "info"
        (take 2 (startMessages (domains, stopWords, maxSnapshots))))).
Proof.
  intros Hd Hr Hp. unfold prepare. rewrite Hd, Hr, Hp.
  unfold bind, clearStatuses, modifyWorld, ret. cbn [fst snd].
  rewrite !addLog_run. cbn. rewrite <- !app_assoc. cbn.
  do 3 f_equal. f_equal. lia.
Qed.

Lemma serve_accepted req fields w :
  accepted req = Some fields ->
  serve req (w, [])
  = (do completion <- analysis clock analyzeDomainsForSpam (engineCallOf fields);
     finish clock completion)
      (mkWorld ∅
         (console w
          ++ map lineOf (stamp clock (clockReads w) "info" (startMessages fields)))
         (clockReads w + 3) (engineCalls w),
       stamp clock (clockReads w) "info" (startMessages fields)).
Proof.
  intros Hacc. unfold serve, tryBlock, bind.
  rewrite (prepare_accepted _ _ _ Hacc). reflexivity.
Qed.

Lemma startMessages_length fields : length (startMessages fields) = 3.
Proof. destruct fields as [[? ?] ?]. reflexivity. Qed.

Lemma runningLogs_length w fields :
  length (runningLogs w fields)
  = 3 + length (emitted clock (clockReads w + 3) (events (engineRunOf w fields))).
Proof.
  unfold runningLogs. rewrite length_app, stamp_length, startMessages_length.
  reflexivity.
Qed.

(** The handler on an accepted request whose analysis resolves. *)
Lemma handler_resolved req w fields results :
  accepted req = Some fields ->
  outcome (engineRunOf w fields) = Resolved results ->
  handler req w
  = (mkResponse 200
       (SuccessBody results (summarize results) (resolvedLogs w fields results)),
     mkWorld (reported (events (engineRunOf w fields)) ∅)
       (console w ++ map lineOf (resolvedLogs w fields results))
       (clockReads w + length (resolvedLogs w fields results))
       (engineCalls w ++ [engineCallOf fields])).
Proof.
  intros Hacc Hout. destruct (accepted_inv _ _ Hacc) as (Hm & _).
  unfold handler. rewrite Hm, String.eqb_refl. cbn [negb].
  rewrite (serve_accepted _ _ _ Hacc).
  unfold analysis. unfold bind at 1 2. rewrite awaitEngine_run.
  cbv zeta. cbn [engineCalls domainStatuses console clockReads].
  change (analyzeDomainsForSpam _ _) with (engineRunOf w fields).
  rewrite Hout. unfold settle, finish.
  unfold bind, readLogs, ret. rewrite addLog_run.
  cbn [fst snd domainStatuses console clockReads engineCalls].
  unfold resolvedLogs. rewrite !map_app, !length_app, runningLogs_length.
  unfold runningLogs. rewrite !map_app, <- !app_assoc. cbn [stamp map length].
  rewrite ?Nat.add_assoc, ?Nat.add_1_r. reflexivity.
Qed.

(** The handler on an accepted request whose analysis rejects. *)
Lemma handler_rejected req w fields error :
  accepted req = Some fields ->
  outcome (engineRunOf w fields) = Rejected error ->
  handler req w
  = (mkResponse 500
       (FailureBody "Spam analysis failed" (errMessage error)
          (errorDetails error) (rejectedLogs w fields error)),
     mkWorld (reported (events (engineRunOf w fields)) ∅)
       (console w ++ map lineOf (rejectedLogs w fields error)
        ++ [ConsoleError "Spam analysis error:" error])
       (clockReads w + length (rejectedLogs w fields error))
       (engineCalls w ++ [engineCallOf fields])).
Proof.
  intros Hacc Hout. destruct (accepted_inv _ _ Hacc) as (Hm & _).
  unfold handler. rewrite Hm, String.eqb_refl. cbn [negb].
  rewrite (serve_accepted _ _ _ Hacc).
  unfold analysis. unfold bind at 1 2. rewrite awaitEngine_run.
  cbv zeta. cbn [engineCalls domainStatuses console clockReads].
  change (analyzeDomainsForSpam _ _) with (engineRunOf w fields).
  rewrite Hout. unfold settle, finish.
  unfold bind at 1. rewrite logError_run. unfold ret at 1.
  unfold catchBlock. unfold bind at 1. rewrite logError_run.
  unfold bind, consoleError, modifyWorld, readLogs, ret, withConsole.
  cbn [fst snd domainStatuses console clockReads engineCalls].
  unfold rejectedLogs.
  rewrite ?stamp_app, ?map_app, ?length_app, ?stamp_length, runningLogs_length.
  unfold runningLogs. rewrite ?map_app, <- ?app_assoc, ?Nat.add_assoc.
  reflexivity.
Qed.

(** The statement that follows the method check when the body cannot be
    destructured: the outer [catch] runs on the empty [logs]. *)
Lemma handler_undestructurable req w :
  method req = "POST" ->
  destructure (body req) = None ->
  let error := destructureError (body req) in
  handler req w
  = (mkResponse 500
       (FailureBody "Spam analysis failed" (errMessage error)
          (errorDetails error) (fatalLogs clock w error)),
     mkWorld (domainStatuses w)
       (console w ++ map lineOf (fatalLogs clock w error)
        ++ [ConsoleError "Spam analysis error:" error])
       (clockReads w + length (fatalLogs clock w error))
       (engineCalls w)).
Proof.
  intros Hm Hd error.
  unfold handler, serve, tryBlock, prepare.
  rewrite Hm, String.eqb_refl, Hd. cbn [negb].
  cbv beta iota zeta delta [bind ret finish].
  unfold catchBlock. unfold bind at 1. rewrite logError_run.
  unfold bind, consoleError, modifyWorld, readLogs, ret, withConsole.
  cbn [fst snd domainStatuses console clockReads engineCalls].
  unfold fatalLogs. fold error. rewrite stamp_length, <- !app_assoc. cbn [app].
  reflexivity.
Qed.

(** The handler on a request whose [domains] fail the validation. *)
Lemma handler_invalid req w domains stopWords maxSnapshots :
  method req = "POST" ->
  destructure (body req) = Some (domains, stopWords, maxSnapshots) ->
  domainsRejected domains = true ->
  handler req w
  = (mkResponse 400
       (ValidationBody "domains array is required"
          [mkLog (clock (clockReads w)) "error" "domains array is required"]),
     withClockReads (S (clockReads w)) w).
Proof.
  intros Hm Hd Hr.
  unfold handler, serve, tryBlock, prepare.
  rewrite Hm, String.eqb_refl, Hd, Hr.
  reflexivity.
Qed.

(** The handler on a request whose snapshot limit has no text: line 47
    throws after the map was cleared and two entries were logged. *)
Lemma handler_unprintable req w domains stopWords maxSnapshots :
  method req = "POST" ->
  destructure (body req) = Some (domains, stopWords, maxSnapshots) ->
  domainsRejected domains = false ->
  js_to_string (snapshotsLimitOf maxSnapshots) = None ->
  let fields := (domains, stopWords, maxSnapshots) in
  let error := toPrimitiveError (snapshotsLimitOf maxSnapshots) in
  handler req w
  = (mkResponse 500
       (FailureBody "Spam analysis failed" (errMessage error)
          (errorDetails error) (abortedLogs w fields error)),
     mkWorld ∅
       (console w ++ map lineOf (abortedLogs w fields error)
        ++ [ConsoleError "Spam analysis error:" error])
       (clockReads w + length (abortedLogs w fields error))
       (engineCalls w)).
Proof.
  intros Hm Hd Hr Hp fields error.
  unfold handler, serve, tryBlock. rewrite Hm, String.eqb_refl. cbn [negb].
  unfold bind at 1 2. rewrite (prepare_unprintable _ _ _ _ _ Hd Hr Hp).
  unfold ret at 1. unfold finish, catchBlock. unfold bind at 1.
  rewrite logError_run.
  unfold bind, consoleError, modifyWorld, readLogs, ret, withConsole.
  cbn [fst snd domainStatuses console clockReads engineCalls].
  unfold abortedLogs. fold fields error.
  rewrite !map_app, !length_app, !stamp_length, <- !app_assoc, ?Nat.add_assoc.
  reflexivity.
Qed.

Lemma handler_other_method req w :
  method req <> "POST" ->
  handler req w = (mkResponse 405 (ErrorBody "Method not allowed"), w).
Proof.
  intros Hm. unfold handler.
  destruct (String.eqb (method req) "POST") eqn:E; [|reflexivity].
  apply String.eqb_eq in E. contradiction.
Qed.

Lemma accepted_intro req domains stopWords maxSnapshots text :
  method req = "POST" ->
  destructure (body req) = Some (domains, stopWords, maxSnapshots) ->
  domainsRejected domains = false ->
  js_to_string (snapshotsLimitOf maxSnapshots) = Some text ->
  accepted req = Some (domains, stopWords, maxSnapshots).
Proof.
  intros Hm Hd Hr Hp. unfold accepted. rewrite Hm, String.eqb_refl, Hd, Hr, Hp.
  reflexivity.
Qed.

Lemma destructure_fields b fields :
  destructure b = Some fields ->
  fields = (getProp b "domains", getProp b "stopWords", getProp b "maxSnapshots").
Proof. destruct b; cbn; congruence. Qed.

Lemma accepted_fields req fields :
  accepted req = Some fields ->
  fields = (getProp (body req) "domains", getProp (body req) "stopWords",
            getProp (body req) "maxSnapshots").
Proof.
  intros Hacc. destruct (accepted_inv _ _ Hacc) as (_ & Hd & _).
  exact (destructure_fields _ _ Hd).
Qed.

Lemma stamp_stamped n type msgs : stamped clock n (stamp clock n type msgs).
Proof.
  revert n. induction msgs as [|m msgs IH]; intros n; cbn.
  - apply stamped_nil.
  - apply stamped_cons; [reflexivity | apply IH].
Qed.

Lemma stamp_levels n type msgs :
  type = "info" \/ type = "success" \/ type = "error" ->
  Forall knownLevel (stamp clock n type msgs).
Proof.
  intros Ht. revert n. induction msgs as [|m msgs IH]; intros n; cbn;
    constructor; [exact Ht | apply IH].
Qed.

Lemma stamp_messages n type msgs : map message (stamp clock n type msgs) = msgs.
Proof.
  revert n. induction msgs as [|m msgs IH]; intros n; cbn;
    [reflexivity | f_equal; apply IH].
Qed.

(** Splits a goal about [handler req w] along the six paths through the
    handler and rewrites with the closed form of each. *)
Ltac by_paths req w :=
  let Hm := fresh "Hm" in
  let Hd := fresh "Hd" in
  let Hr := fresh "Hr" in
  let Hacc := fresh "Hacc" in
  let Hout := fresh "Hout" in
  let domains := fresh "domains" in
  let stopWords := fresh "stopWords" in
  let maxSnapshots := fresh "maxSnapshots" in
  let results := fresh "results" in
  let error := fresh "error" in
  let text := fresh "text" in
  let Hp := fresh "Hp" in
  destruct (decide (method req = "POST")) as [Hm|Hm];
  [ destruct (destructure (body req))
      as [[[domains stopWords] maxSnapshots]|] eqn:Hd;
    [ destruct (domainsRejected domains) eqn:Hr;
      [ rewrite (handler_invalid req w _ _ _ Hm Hd Hr)
      | destruct (js_to_string (snapshotsLimitOf maxSnapshots))
          as [text|] eqn:Hp;
        [ pose proof (accepted_intro req _ _ _ _ Hm Hd Hr Hp) as Hacc;
          destruct (outcome (engineRunOf w (domains, stopWords, maxSnapshots)))
            as [results|error] eqn:Hout;
          [ rewrite (handler_resolved req w _ _ Hacc Hout)
          | rewrite (handler_rejected req w _ _ Hacc Hout) ]
        | rewrite (handler_unprintable req w _ _ _ Hm Hd Hr Hp) ] ]
    | rewrite (handler_undestructurable req w Hm Hd) ]
  | rewrite (handler_other_method req w Hm) ].

(** The invocations of the engine one request adds. *)
Lemma handler_engineCalls req w :
  engineCalls (snd (handler req w))
  = engineCalls w
    ++ match accepted req with
       | Some fields => [engineCallOf fields]
       | None => []
       end.
Proof.
  by_paths req w; cbn [snd engineCalls withClockReads];
    try rewrite Hacc; try reflexivity.
  - unfold accepted. rewrite Hm, String.eqb_refl, Hd, Hr. apply eq_sym, app_nil_r.
  - unfold accepted. rewrite Hm, String.eqb_refl, Hd, Hr, Hp.
    apply eq_sym, app_nil_r.
  - unfold accepted. rewrite Hm, String.eqb_refl, Hd. apply eq_sym, app_nil_r.
  - unfold accepted. apply String.eqb_neq in Hm. rewrite Hm. apply eq_sym, app_nil_r.
Qed.

Lemma runningLogs_wf w fields :
  Forall knownLevel (runningLogs w fields)
  /\ stamped clock (clockReads w) (runningLogs w fields).
Proof.
  unfold runningLogs. split.
  - apply Forall_app_2; [apply stamp_levels; auto | apply emitted_levels].
  - apply stamped_app; [apply stamp_stamped|].
    rewrite stamp_length, startMessages_length. apply emitted_stamped.
Qed.

Lemma resolvedLogs_wf w fields results :
  Forall knownLevel (resolvedLogs w fields results)
  /\ stamped clock (clockReads w) (resolvedLogs w fields results).
Proof.
  destruct (runningLogs_wf w fields) as [Hl Hs]. unfold resolvedLogs. split.
  - apply Forall_app_2; [exact Hl | apply stamp_levels; auto].
  - apply stamped_app; [exact Hs | apply stamp_stamped].
Qed.

Lemma rejectedLogs_wf w fields error :
  Forall knownLevel (rejectedLogs w fields error)
  /\ stamped clock (clockReads w) (rejectedLogs w fields error).
Proof.
  destruct (runningLogs_wf w fields) as [Hl Hs]. unfold rejectedLogs. split.
  - apply Forall_app_2; [exact Hl | apply stamp_levels; auto].
  - apply stamped_app; [exact Hs | apply stamp_stamped].
Qed.

(** The logs of every response that has logs. *)
Lemma handler_logs req w l :
  bodyLogs (json (fst (handler req w))) = Some l ->
  Forall knownLevel l /\ stamped clock (clockReads w) l.
Proof.
  by_paths req w; cbn [fst json bodyLogs]; try discriminate; intros [= <-].
  - split.
    + constructor; [right; right; reflexivity | constructor].
    + apply stamped_cons; [reflexivity | apply stamped_nil].
  - apply resolvedLogs_wf.
  - apply rejectedLogs_wf.
  - unfold abortedLogs. split.
    + apply Forall_app_2; apply stamp_levels; auto.
    + apply stamped_app; [apply stamp_stamped|].
      rewrite stamp_length. destruct startMessages as [|? [|? ?]] eqn:E;
        try (pose proof (startMessages_length (domains, stopWords, maxSnapshots)) as Hl;
             rewrite E in Hl; discriminate Hl).
      apply stamp_stamped.
  - unfold fatalLogs. split; [apply stamp_levels; auto | apply stamp_stamped].
Qed.

(** *** Actions only ever extend the [logs] array *)

Lemma appendOnly_ret {A : Type} (a : A) : appendOnly (ret a).
Proof. intros s. reflexivity. Qed.

Lemma appendOnly_bind {A B : Type} (m : Act A) (k : A -> Act B) :
  appendOnly m -> (forall a, appendOnly (k a)) -> appendOnly (bind m k).
Proof.
  intros Hm Hk s. unfold bind. specialize (Hm s).
  destruct (m s) as [a s']. cbn [snd] in Hm.
  etrans; [exact Hm | apply Hk].
Qed.

Lemma appendOnly_modifyWorld f : appendOnly (modifyWorld f).
Proof. intros s. reflexivity. Qed.

Lemma appendOnly_addLog message type : appendOnly (addLog clock message type).
Proof. intros [w logs]. rewrite addLog_run. cbn [snd]. apply prefix_app_r. reflexivity. Qed.

Lemma appendOnly_callback ev : appendOnly (callback clock ev).
Proof.
  destruct ev; [apply appendOnly_addLog | apply appendOnly_modifyWorld].
Qed.

Lemma appendOnly_deliver evs : appendOnly (deliver clock evs).
Proof.
  induction evs as [|ev evs IH]; [apply appendOnly_ret|].
  cbn [deliver]. apply appendOnly_bind; [apply appendOnly_callback | intros _; exact IH].
Qed.

Lemma appendOnly_logError prefix error : appendOnly (logError clock prefix error).
Proof.
  unfold logError. apply appendOnly_bind; [apply appendOnly_addLog|intros _].
  destruct (truthyProp (errStack error));
    [apply appendOnly_addLog | apply appendOnly_ret].
Qed.

Lemma appendOnly_awaitEngine call :
  appendOnly (awaitEngine clock analyzeDomainsForSpam call).
Proof.
  unfold awaitEngine. apply appendOnly_bind; [intros s; reflexivity|].
  intros engineRun. apply appendOnly_bind; [apply appendOnly_deliver|].
  intros _. apply appendOnly_ret.
Qed.

Lemma appendOnly_settle settled : appendOnly (settle clock settled).
Proof.
  destruct settled as [results|error]; cbn [settle].
  - apply appendOnly_bind; [apply appendOnly_addLog|intros _].
    intros s. reflexivity.
  - apply appendOnly_bind; [apply appendOnly_logError|intros _].
    apply appendOnly_ret.
Qed.

Lemma appendOnly_analysis call :
  appendOnly (analysis clock analyzeDomainsForSpam call).
Proof.
  unfold analysis. apply appendOnly_bind; [apply appendOnly_awaitEngine|].
  apply appendOnly_settle.
Qed.

Lemma appendOnly_catchBlock error : appendOnly (catchBlock clock error).
Proof.
  unfold catchBlock. apply appendOnly_bind; [apply appendOnly_logError|intros _].
  apply appendOnly_bind; [apply appendOnly_modifyWorld|intros _].
  intros s. reflexivity.
Qed.

Lemma appendOnly_prepare req : appendOnly (prepare req).
Proof.
  unfold prepare.
  destruct (destructure (body req)) as [[[domains stopWords] maxSnapshots]|];
    [|apply appendOnly_ret].
  destruct (domainsRejected domains); [intros s; reflexivity|].
  repeat (apply appendOnly_bind;
          [first [apply appendOnly_modifyWorld | apply appendOnly_addLog]
          |intros _]).
  destruct (js_to_string _); [|apply appendOnly_ret].
  apply appendOnly_bind; [apply appendOnly_addLog | intros _; apply appendOnly_ret].
Qed.

Lemma appendOnly_finish completion : appendOnly (finish clock completion).
Proof.
  destruct completion as [response|error];
    [apply appendOnly_ret | apply appendOnly_catchBlock].
Qed.

Lemma appendOnly_serve req : appendOnly (serve req).
Proof.
  unfold serve. apply appendOnly_bind; [|apply appendOnly_finish].
  unfold tryBlock. apply appendOnly_bind; [apply appendOnly_prepare|].
  intros [[response|call]|error];
    [apply appendOnly_ret | apply appendOnly_analysis | apply appendOnly_ret].
Qed.

(** *** Actions that leave the status map alone *)

Lemma keepsStore_ret {A : Type} (a : A) : keepsStore (ret a).
Proof. intros s. reflexivity. Qed.

Lemma keepsStore_bind {A B : Type} (m : Act A) (k : A -> Act B) :
  keepsStore m -> (forall a, keepsStore (k a)) -> keepsStore (bind m k).
Proof.
  intros Hm Hk s. unfold bind. specialize (Hm s).
  destruct (m s) as [a s']. cbn [snd] in Hm. rewrite <- Hm. apply Hk.
Qed.

Lemma keepsStore_addLog message type : keepsStore (addLog clock message type).
Proof. intros [w logs]. rewrite addLog_run. reflexivity. Qed.

Lemma keepsStore_logError prefix error : keepsStore (logError clock prefix error).
Proof. intros [w logs]. rewrite logError_run. reflexivity. Qed.

Lemma keepsStore_catchBlock error : keepsStore (catchBlock clock error).
Proof.
  unfold catchBlock. apply keepsStore_bind; [apply keepsStore_logError|intros _].
  apply keepsStore_bind; [intros s; reflexivity|intros _].
  intros s. reflexivity.
Qed.

Lemma keepsStore_finish completion : keepsStore (finish clock completion).
Proof.
  destruct completion as [response|error];
    [apply keepsStore_ret | apply keepsStore_catchBlock].
Qed.

Lemma keepsStore_settle settled : keepsStore (settle clock settled).
Proof.
  destruct settled as [results|error]; cbn [settle].
  - apply keepsStore_bind; [apply keepsStore_addLog|intros _].
    intros s. reflexivity.
  - apply keepsStore_bind; [apply keepsStore_logError|intros _].
    apply keepsStore_ret.
Qed.

(** *** The steps of a request and the status map *)

(** The statements before the inner [try] clear the map exactly when the
    validation of [domains] passes, and write nothing to it. *)
Lemma begin_store req w :
  domainStatuses (snd (begin req w))
  = if clearsStore req then ∅ else domainStatuses w.
Proof.
  unfold begin, clearsStore.
  destruct (String.eqb (method req) "POST"); [|reflexivity]. cbn [negb andb].
  destruct (destructure (body req)) as [[[domains stopWords] maxSnapshots]|] eqn:Hd.
  - destruct (domainsRejected domains) eqn:Hr; cbn [negb].
    + unfold prepare. rewrite Hd, Hr. reflexivity.
    + destruct (js_to_string (snapshotsLimitOf maxSnapshots)) as [text|] eqn:Hp.
      * unfold prepare. rewrite Hd, Hr, Hp.
        unfold bind, clearStatuses, modifyWorld, ret, invokeEngine.
        cbn [fst snd]. rewrite !addLog_run. reflexivity.
      * rewrite (prepare_unprintable _ _ _ _ _ Hd Hr Hp).
        pose proof (keepsStore_catchBlock
                      (toPrimitiveError (snapshotsLimitOf maxSnapshots))) as Hk.
        match goal with |- context [catchBlock clock ?e ?s] =>
          specialize (Hk s); destruct (catchBlock clock e s) as [response s']
        end.
        cbn [fst snd] in *. rewrite Hk. reflexivity.
  - unfold prepare. rewrite Hd. unfold ret.
    pose proof (keepsStore_catchBlock (destructureError (body req))) as Hk.
    match goal with |- context [catchBlock clock ?e ?s] =>
      specialize (Hk s); destruct (catchBlock clock e s) as [response s']
    end.
    cbn [fst snd] in *. rewrite Hk. reflexivity.
Qed.

(** A step of a suspended request writes to the map only when the engine
    fires the status callback. *)
Lemma advance_store r w d :
  domainStatuses (snd (advance clock r w)) !! d
  = entryAfter d
      (match pendingEvents r with
       | OnStatus domainStatus :: _ => [Reported domainStatus]
       | _ => []
       end)
      (domainStatuses w !! d).
Proof.
  unfold advance. destruct (pendingEvents r) as [|[msg|domainStatus] rest].
  - pose proof (keepsStore_bind _ _ (keepsStore_settle (settlement r))
                  keepsStore_finish (w, heldLogs r)) as Hk.
    destruct (bind _ _ _) as [response s]. cbn [fst snd] in *.
    rewrite Hk. reflexivity.
  - cbn [callback]. rewrite addLog_run. reflexivity.
  - cbn [callback entryAfter]. unfold statusCallback, modifyWorld.
    cbn [fst snd domainStatuses withStatuses].
    case_decide as Hdom.
    + rewrite <- Hdom. apply lookup_insert_eq.
    + apply lookup_insert_ne. exact Hdom.
Qed.

Lemma act_store sv a d :
  domainStatuses (world (act sv a)) !! d
  = entryAfter d (storeOpsOf sv a) (domainStatuses (world sv) !! d).
Proof.
  destruct a as [req|i]; unfold act; cbn [storeOpsOf].
  - pose proof (begin_store req (world sv)) as Hb.
    destruct (begin req (world sv)) as [progress w']. cbn [snd world] in *.
    rewrite Hb. destruct (clearsStore req); [apply lookup_empty | reflexivity].
  - destruct (slots sv !! i) as [[response|r]|]; try reflexivity.
    pose proof (advance_store r (world sv) d) as Ha.
    destruct (advance clock r (world sv)) as [progress w']. exact Ha.
Qed.

Lemma runSchedule_store actions : forall sv d,
  domainStatuses (world (runSchedule actions sv)) !! d
  = entryAfter d (storeOps sv actions) (domainStatuses (world sv) !! d).
Proof.
  induction actions as [|a actions IH]; intros sv d; [reflexivity|].
  change (runSchedule (a :: actions) sv) with (runSchedule actions (act sv a)).
  change (storeOps sv (a :: actions))
    with (storeOpsOf sv a ++ storeOps (act sv a) actions).
  rewrite entryAfter_app, <- act_store. apply IH.
Qed.

(** *** The request served alone is a schedule without interruption *)

Lemma complete_waiting evs settled : forall logs w,
  complete clock (S (length evs)) (Waiting (mkSuspended logs evs settled)) w
  = (let (response, s) :=
       (run deliver clock evs;
        do completion <- settle clock settled;
        finish clock completion) (w, logs) in
     (Answered response, fst s)).
Proof.
  induction evs as [|ev evs IH]; intros logs w.
  - cbn [length complete]. unfold advance, bind.
    cbn [pendingEvents heldLogs settlement deliver ret].
    destruct (settle clock settled (w, logs)) as [completion s].
    destruct (finish clock completion s) as [response s']. reflexivity.
  - cbn [length]. change (complete clock (S (S (length evs))) ?p w)
      with (let (p', w') := advance clock
              (mkSuspended logs (ev :: evs) settled) w in
            complete clock (S (length evs)) p' w').
    unfold advance at 1. cbn [pendingEvents heldLogs settlement].
    unfold bind at 1. cbn [deliver]. unfold bind at 1.
    destruct (callback clock ev (w, logs)) as [[] [w1 logs1]]. cbn [fst snd].
    rewrite IH. reflexivity.
Qed.

Lemma handler_alone req w :
  exists fuel,
    (let (progress, w') := begin req w in complete clock fuel progress w')
    = (let (response, w') := handler req w in (Answered response, w')).
Proof.
  unfold begin, handler, serve, tryBlock.
  destruct (negb (String.eqb (method req) "POST")); [exists 0; reflexivity|].
  unfold bind at 1 2.
  destruct (prepare req (w, [])) as [[[response|call]|error] s].
  - exists 0. reflexivity.
  - unfold analysis, awaitEngine. unfold bind at 1 2.
    destruct (invokeEngine analyzeDomainsForSpam call s) as [engineRun s'].
    exists (S (length (events engineRun))).
    rewrite complete_waiting.
    unfold bind, ret. destruct s' as [w' logs']. cbn [fst snd].
    destruct (deliver clock (events engineRun) (w', logs')) as [[] s1].
    destruct (settle clock (outcome engineRun) s1) as [completion s2].
    destruct (finish clock completion s2) as [response s3]. reflexivity.
  - exists 0. unfold ret, finish.
    destruct (catchBlock clock error s) as [response s']. reflexivity.
Qed.

Lemma runSchedule_last fuel : forall earlier progress w,
  runSchedule (replicate fuel (Advance (length earlier)))
    (mkServer w (earlier ++ [progress]))
  = (let (progress', w') := complete clock fuel progress w in
     mkServer w' (earlier ++ [progress'])).
Proof.
  induction fuel as [|fuel IH]; intros earlier progress w; [reflexivity|].
  change (runSchedule (replicate (S fuel) ?a) ?sv)
    with (runSchedule (replicate fuel a) (act sv a)).
  unfold act at 1. cbn [slots world].
  rewrite list_lookup_middle by reflexivity.
  destruct progress as [response|r]; cbn [complete].
  - clear IH. induction fuel as [|fuel IH]; [reflexivity|].
    change (runSchedule (replicate (S fuel) ?a) ?sv)
      with (runSchedule (replicate fuel a) (act sv a)).
    unfold act at 1. cbn [slots world].
    rewrite list_lookup_middle by reflexivity. exact IH.
  - destruct (advance clock r w) as [progress' w'].
    cbn [slots]. rewrite insert_app_r_alt, Nat.sub_diag by reflexivity.
    apply IH.
Qed.

(** ** The claims *)


(** C2 (amended). A POST request whose body can be destructured and whose
    [domains] is missing, not an array or an empty array is answered 400
    with the single validation entry as its logs; the engine is not
    invoked, nothing is logged or printed, and the status map is left as
    it was: only the clock was read, once. *)
Theorem invalid_domains_rejected req w :
  method req = "POST" ->
  body req <> JUndefined ->
  body req <> JNull ->
  getProp (body req) "domains" = JUndefined
  \/ isArray (getProp (body req) "domains") = false
  \/ getProp (body req) "domains" = JArr [] ->
  handler req w
  = (mkResponse 400
       (ValidationBody "domains array is required"
          [mkLog (clock (clockReads w)) "error" "domains array is required"]),
     withClockReads (S (clockReads w)) w)
  /\ engineCalls (snd (handler req w)) = engineCalls w
  /\ console (snd (handler req w)) = console w
  /\ domainStatuses (snd (handler req w)) = domainStatuses w.
Proof.
  intros Hm Hu Hn Hdomains.
  assert (Hd : destructure (body req)
               = Some (getProp (body req) "domains", getProp (body req) "stopWords",
                       getProp (body req) "maxSnapshots"))
    by (destruct (body req); cbn; congruence).
  assert (Hr : domainsRejected (getProp (body req) "domains") = true).
  { unfold domainsRejected.
    destruct Hdomains as [->|[Ha| ->]]; [reflexivity| |reflexivity].
    rewrite Ha. cbn [negb]. rewrite orb_true_r. reflexivity. }
  rewrite (handler_invalid req w _ _ _ Hm Hd Hr). auto.
Qed.

(** C3. When the engine's promise rejects, the handler answers 500 with the
    error's message and the logs accumulated so far (the start entries, what
    the engine logged, and the entries of the two [catch] blocks); the body
    has neither results nor a summary. *)
Theorem engine_failure_propagates req w fields error :
  accepted req = Some fields ->
  outcome (engineRunOf w fields) = Rejected error ->
  code (fst (handler req w)) = 500
  /\ bodyError (json (fst (handler req w))) = Some "Spam analysis failed"
  /\ bodyMessage (json (fst (handler req w))) = errMessage error
  /\ bodyResults (json (fst (handler req w))) = None
  /\ bodySummary (json (fst (handler req w))) = None
  /\ exists logs,
       bodyLogs (json (fst (handler req w))) = Some logs
       /\ map message logs
          = startMessages fields
            ++ logMessages (events (engineRunOf w fields))
            ++ errorMessages "❌ Error: " error
            ++ errorMessages "❌ Fatal error: " error.
Proof.
  intros Hacc Hout. rewrite (handler_rejected req w _ _ Hacc Hout).
  cbn [fst code json bodyError bodyMessage bodyResults bodySummary bodyLogs].
  repeat split. eexists; split; [reflexivity|].
  unfold rejectedLogs, runningLogs.
  rewrite !map_app, !stamp_messages, emitted_messages, <- app_assoc.
  reflexivity.
Qed.


(** C5. When the request does not specify [maxSnapshots], every invocation
    of the engine the handler makes carries the snapshot limit 10 and the
    concurrency bound 3; an accepted request makes exactly one. *)
Theorem default_limits req w :
  getProp (body req) "maxSnapshots" = JUndefined ->
  exists calls,
    engineCalls (snd (handler req w)) = engineCalls w ++ calls
    /\ Forall (fun call => callSnapshotsLimit call = JNum 10
                           /\ callMaxConcurrent call = 3%Z) calls
    /\ (forall fields, accepted req = Some fields -> length calls = 1).
Proof.
  intros Hms. eexists. split; [apply handler_engineCalls|].
  destruct (accepted req) as [fields|] eqn:Hacc.
  - split; [|reflexivity].
    rewrite (accepted_fields _ _ Hacc), Hms. repeat constructor.
  - split; [constructor | discriminate].
Qed.

(** C6. The stop words are normalised once, before the engine starts: a
    non-empty string is parsed and combined with the defaults, an array is
    combined with the defaults, and an absent (or empty) value leaves the
    defaults as they are; every invocation of the engine carries that final
    array. *)
Theorem stop_words_normalised req w :
  (exists calls,
     engineCalls (snd (handler req w)) = engineCalls w ++ calls
     /\ Forall (fun call =>
                  callStopWords call
                  = finalStopWordsOf (getProp (body req) "stopWords")) calls)
  /\ (forall s, s <> "" ->
        finalStopWordsOf (JStr s) = combineStopWords (parseStopWords s))
  /\ (forall items,
        finalStopWordsOf (JArr items) = combineStopWords (JArr items))
  /\ finalStopWordsOf JUndefined = defaultStopWords
  /\ finalStopWordsOf (JStr "") = defaultStopWords.
Proof.
  split; [|repeat split].
  - eexists. split; [apply handler_engineCalls|].
    destruct (accepted req) as [fields|] eqn:Hacc; [|constructor].
    rewrite (accepted_fields _ _ Hacc). repeat constructor.
  - intros s Hs. unfold finalStopWordsOf. cbn [truthy].
    apply String.eqb_neq in Hs. rewrite Hs. reflexivity.
Qed.

(** C7. The [logs] array only grows at its end: every action of the handler
    leaves an extension of the array it found, [addLog] adds exactly one
    entry stamped with the current clock reading, and delivering more of
    the engine's events extends what delivering fewer of them gave.  The
    logs of a response are in emission order (the i-th entry was stamped by
    the i-th clock reading of the request; the engine's messages appear in
    the order the engine emitted them, after the start entries), and every
    entry has a timestamp, a message and a type among info, success and
    error. *)
Theorem logs_append_only req w :
  appendOnly (serve req)
  /\ (forall message type s,
        snd (snd (addLog clock message type s))
        = snd s ++ [mkLog (clock (clockReads (fst s))) type message])
  /\ (forall evs1 evs2 s,
        snd (snd (deliver clock evs1 s))
        `prefix_of` snd (snd (deliver clock (evs1 ++ evs2) s)))
  /\ (forall logs,
        bodyLogs (json (fst (handler req w))) = Some logs ->
        Forall knownLevel logs /\ stamped clock (clockReads w) logs)
  /\ (forall fields logs,
        accepted req = Some fields ->
        bodyLogs (json (fst (handler req w))) = Some logs ->
        exists rest,
          map message logs
          = startMessages fields
            ++ logMessages (events (engineRunOf w fields)) ++ rest).
Proof.
  split; [apply appendOnly_serve|].
  split; [intros message type [w0 logs]; rewrite addLog_run; reflexivity|].
  split; [intros evs1 evs2 s; rewrite deliver_app; apply appendOnly_deliver|].
  split; [intros logs; apply handler_logs|].
  intros fields logs Hacc.
  destruct (outcome (engineRunOf w fields)) as [results|error] eqn:Hout.
  - rewrite (handler_resolved req w _ _ Hacc Hout).
    cbn [fst json bodyLogs]. intros [= <-].
    unfold resolvedLogs, runningLogs.
    rewrite !map_app, !stamp_messages, emitted_messages, <- app_assoc.
    eexists. reflexivity.
  - rewrite (handler_rejected req w _ _ Hacc Hout).
    cbn [fst json bodyLogs]. intros [= <-].
    unfold rejectedLogs, runningLogs.
    rewrite !map_app, !stamp_messages, emitted_messages, <- app_assoc.
    eexists. reflexivity.
Qed.

(** C8. A request whose method is not POST is answered 405 with the error
    "Method not allowed"; the body has no logs and the process state is
    untouched: nothing validated, logged, printed or started. *)
Theorem other_methods_refused req w :
  method req <> "POST" ->
  handler req w = (mkResponse 405 (ErrorBody "Method not allowed"), w)
  /\ bodyLogs (json (fst (handler req w))) = None
  /\ engineCalls (snd (handler req w)) = engineCalls w
  /\ console (snd (handler req w)) = console w
  /\ clockReads (snd (handler req w)) = clockReads w.
Proof.
  intros Hm. rewrite (handler_other_method req w Hm). auto.
Qed.

(** C9 (amended). The status map belongs to the process and is shared by
    all its requests, overlapping ones included.  It is cleared only after
    the validation of [domains] passed: a request refused by the method
    check or by the validation (405, 400) leaves it as it was.  Whatever
    the interleaving of the requests in flight, the entry of a domain is
    the last status reported for it, by the status callback of any
    request, since the map was last cleared by any request.  Only when no
    other request overlaps is that the last status this request's own
    engine run reported, at its end and after every prefix of the engine's
    events. *)
Theorem status_store_interleaved :
  (forall req w,
     code (fst (handler req w)) = 405 \/ code (fst (handler req w)) = 400 ->
     domainStatuses (snd (handler req w)) = domainStatuses w)
  /\ (forall req sv,
        clearsStore req = false ->
        domainStatuses (world (act sv (Arrive req))) = domainStatuses (world sv))
  /\ (forall actions sv d,
        domainStatuses (world (runSchedule actions sv)) !! d
        = entryAfter d (storeOps sv actions) (domainStatuses (world sv) !! d))
  /\ (forall req w fields d,
        accepted req = Some fields ->
        domainStatuses (snd (handler req w)) !! d
        = latest d (events (engineRunOf w fields)))
  /\ (forall evs (w0 : World) logs d,
        domainStatuses w0 = ∅ ->
        domainStatuses (fst (snd (deliver clock evs (w0, logs)))) !! d
        = latest d evs).
Proof.
  split; [|split; [|split; [|split]]].
  - intros req w.
    by_paths req w; cbn [fst snd code domainStatuses withClockReads];
      intros [?|?]; congruence.
  - intros req sv Hclear. unfold act.
    pose proof (begin_store req (world sv)) as Hb. rewrite Hclear in Hb.
    destruct (begin req (world sv)) as [progress w']. exact Hb.
  - intros actions sv d. apply runSchedule_store.
  - intros req w fields d Hacc.
    destruct (outcome (engineRunOf w fields)) as [results|error] eqn:Hout;
      [rewrite (handler_resolved req w _ _ Hacc Hout)
      |rewrite (handler_rejected req w _ _ Hacc Hout)];
      cbn [snd domainStatuses]; rewrite reported_lookup;
      destruct (latest d _); reflexivity || apply lookup_empty.
  - intros evs w0 logs d Hempty. rewrite deliver_run.
    cbn [fst snd domainStatuses]. rewrite reported_lookup, Hempty.
    destruct (latest d evs); [reflexivity|apply lookup_empty].
Qed.

(** C10. A [stopWords] value that is neither a string nor an array is
    ignored: the default stop words are used, and the handler answers the
    request exactly as it answers the same request without [stopWords]
    (same response, same logs, same console output). *)
Theorem odd_stop_words_ignored req req' w domains stopWords maxSnapshots :
  method req' = method req ->
  destructure (body req) = Some (domains, stopWords, maxSnapshots) ->
  destructure (body req') = Some (domains, JUndefined, maxSnapshots) ->
  isString stopWords = false ->
  isArray stopWords = false ->
  finalStopWordsOf stopWords = defaultStopWords
  /\ handler req w = handler req' w.
Proof.
  intros Hm Hd Hd' Hs Ha.
  assert (Hf : finalStopWordsOf stopWords = defaultStopWords).
  { unfold finalStopWordsOf.
    destruct stopWords; try discriminate; destruct (truthy _); reflexivity. }
  split; [exact Hf|].
  unfold handler, serve, tryBlock, prepare. rewrite Hm, Hd, Hd', Hf.
  reflexivity.
Qed.

(** ** Further properties of the handler *)

Lemma domainsRejected_false d :
  domainsRejected d = false <-> exists item items, d = JArr (item :: items).
Proof.
  split.
  - unfold domainsRejected.
    destruct d as [| | | | |[|item items]|]; cbn [isArray negb];
      rewrite ?orb_true_r; cbn; try discriminate.
    eauto.
  - intros (item & items & ->). reflexivity.
Qed.

Lemma accepted_iff req :
  (exists fields, accepted req = Some fields)
  <-> method req = "POST"
      /\ (exists item items, getProp (body req) "domains" = JArr (item :: items))
      /\ (exists text,
            js_to_string (snapshotsLimitOf (getProp (body req) "maxSnapshots"))
            = Some text).
Proof.
  split.
  - intros (fields & Hacc). destruct (accepted_inv _ _ Hacc) as (Hm & _ & Hr).
    pose proof (accepted_printable _ _ Hacc) as Hp.
    rewrite (accepted_fields _ _ Hacc) in Hr, Hp. cbn [fst snd] in Hr, Hp.
    split; [exact Hm|]. split; [apply domainsRejected_false, Hr | eauto].
  - intros (Hm & (item & items & Hd) & (text & Hp)).
    exists (getProp (body req) "domains", getProp (body req) "stopWords",
            getProp (body req) "maxSnapshots").
    apply accepted_intro with text; [exact Hm | | | exact Hp].
    + destruct (body req); cbn in Hd; try discriminate. reflexivity.
    + rewrite Hd. reflexivity.
Qed.

(** X1. The engine is invoked exactly when the request is a POST whose
    [domains] is a non-empty array (its elements are not inspected) and
    whose snapshot limit can be turned into the text of the third start
    entry; it is then invoked once, with the [domains] value as it was
    sent.  Any other request adds no invocation. *)
Theorem engine_invoked_iff req w :
  ((exists call, engineCalls (snd (handler req w)) = engineCalls w ++ [call])
   <-> method req = "POST"
       /\ (exists item items,
             getProp (body req) "domains" = JArr (item :: items))
       /\ (exists text,
             js_to_string (snapshotsLimitOf (getProp (body req) "maxSnapshots"))
             = Some text))
  /\ (forall call,
        engineCalls (snd (handler req w)) = engineCalls w ++ [call] ->
        callDomains call = getProp (body req) "domains")
  /\ ((forall call, engineCalls (snd (handler req w)) <> engineCalls w ++ [call]) ->
      engineCalls (snd (handler req w)) = engineCalls w).
Proof.
  rewrite handler_engineCalls, <- accepted_iff.
  destruct (accepted req) as [fields|] eqn:Hacc.
  - split; [split; eauto|]. split.
    + intros call Hcall. apply app_inv_head in Hcall. injection Hcall as <-.
      rewrite (accepted_fields _ _ Hacc). reflexivity.
    + intros Hno. destruct (Hno _ eq_refl).
  - split; [split|split].
    + intros (call & Hcall). apply app_inv_head in Hcall. discriminate.
    + intros (fields & Hf). discriminate.
    + intros call Hcall. apply app_inv_head in Hcall. discriminate.
    + intros _. apply app_nil_r.
Qed.

(** X2. Every request is answered with one of four codes, decided in this
    order: 405 when the method is not POST; 500 when the body is
    [undefined] or [null]; 400 when [domains] is not a non-empty array; 500
    when the snapshot limit cannot be turned into text; then 200 when the
    engine resolves (with an array of status objects) and 500 when it
    rejects. *)
Theorem response_code_cases req w :
  (method req <> "POST" /\ code (fst (handler req w)) = 405)
  \/ (method req = "POST" /\ (body req = JUndefined \/ body req = JNull)
      /\ code (fst (handler req w)) = 500)
  \/ (method req = "POST" /\ body req <> JUndefined /\ body req <> JNull
      /\ (forall item items,
            getProp (body req) "domains" <> JArr (item :: items))
      /\ code (fst (handler req w)) = 400)
  \/ (method req = "POST"
      /\ (exists item items,
            getProp (body req) "domains" = JArr (item :: items))
      /\ js_to_string (snapshotsLimitOf (getProp (body req) "maxSnapshots"))
         = None
      /\ code (fst (handler req w)) = 500)
  \/ (exists fields results,
        accepted req = Some fields
        /\ outcome (engineRunOf w fields) = Resolved results
        /\ code (fst (handler req w)) = 200)
  \/ (exists fields error,
        accepted req = Some fields
        /\ outcome (engineRunOf w fields) = Rejected error
        /\ code (fst (handler req w)) = 500).
Proof.
  by_paths req w; cbn [fst code].
  - right; right; left.
    pose proof (destructure_fields _ _ Hd) as Hf. injection Hf as -> _ _.
    repeat split; auto.
    + intros Hb. rewrite Hb in Hd. discriminate.
    + intros Hb. rewrite Hb in Hd. discriminate.
    + intros item items Hitems. rewrite Hitems in Hr. discriminate.
  - do 4 right. left. eauto.
  - do 5 right. eauto.
  - do 3 right. left.
    pose proof (destructure_fields _ _ Hd) as Hf. injection Hf as -> _ ->.
    repeat split; auto. apply domainsRejected_false, Hr.
  - right; left. repeat split; auto.
    destruct (body req); cbn in Hd; try discriminate; auto.
  - left. auto.
Qed.

(** X3. A POST whose body is [undefined] or [null] makes the destructuring
    throw: the answer is 500 "Spam analysis failed" with the message of the
    thrown error and the entries of the outer [catch] as logs; the engine is
    not invoked and the status map is not cleared. *)
Theorem missing_body_fails req w :
  method req = "POST" ->
  body req = JUndefined \/ body req = JNull ->
  code (fst (handler req w)) = 500
  /\ bodyError (json (fst (handler req w))) = Some "Spam analysis failed"
  /\ bodyMessage (json (fst (handler req w)))
     = errMessage (destructureError (body req))
  /\ (exists logs,
        bodyLogs (json (fst (handler req w))) = Some logs
        /\ map message logs
           = errorMessages "❌ Fatal error: " (destructureError (body req))
        /\ Forall (fun entry => type entry = "error") logs)
  /\ engineCalls (snd (handler req w)) = engineCalls w
  /\ domainStatuses (snd (handler req w)) = domainStatuses w.
Proof.
  intros Hm Hb.
  assert (Hd : destructure (body req) = None)
    by (destruct Hb as [-> | ->]; reflexivity).
  rewrite (handler_undestructurable req w Hm Hd).
  cbn [fst snd code json bodyError bodyMessage bodyLogs engineCalls domainStatuses].
  repeat split. eexists. split; [reflexivity|]. unfold fatalLogs. split.
  - apply stamp_messages.
  - generalize (clockReads w).
    induction (errorMessages _ _) as [|m msgs IH]; intros n; cbn;
      constructor; [reflexivity | apply IH].
Qed.

(** X4. Every entry of the logs of a 200 or 500 response was also printed,
    as "[TYPE] message", in the same order, and cost one clock reading; a
    500 response prints, after them, the very error it caught (the one
    thrown by the destructuring, by the conversion of the snapshot limit or
    by the engine), whose message it carries.  The entry of a 400 response
    is not printed: the console stays as it was. *)
Theorem console_mirrors_logs req w logs :
  bodyLogs (json (fst (handler req w))) = Some logs ->
  (code (fst (handler req w)) = 200
   /\ console (snd (handler req w)) = console w ++ map lineOf logs
   /\ clockReads (snd (handler req w)) = clockReads w + length logs)
  \/ (code (fst (handler req w)) = 500
      /\ clockReads (snd (handler req w)) = clockReads w + length logs
      /\ exists error,
           console (snd (handler req w))
           = console w ++ map lineOf logs
             ++ [ConsoleError "Spam analysis error:" error]
           /\ bodyMessage (json (fst (handler req w))) = errMessage error
           /\ ((destructure (body req) = None
                /\ error = destructureError (body req))
               \/ (js_to_string
                     (snapshotsLimitOf (getProp (body req) "maxSnapshots"))
                   = None
                   /\ error = toPrimitiveError
                               (snapshotsLimitOf
                                  (getProp (body req) "maxSnapshots")))
               \/ (exists fields,
                     accepted req = Some fields
                     /\ outcome (engineRunOf w fields) = Rejected error)))
  \/ (code (fst (handler req w)) = 400
      /\ console (snd (handler req w)) = console w
      /\ clockReads (snd (handler req w)) = S (clockReads w)
      /\ length logs = 1).
Proof.
  by_paths req w;
    cbn [fst snd code json bodyLogs bodyMessage console clockReads withClockReads];
    try discriminate; intros [= <-].
  - right; right. auto.
  - left. auto.
  - right; left. split; [reflexivity|]. split; [reflexivity|].
    eexists. split; [reflexivity|]. split; [reflexivity|]. eauto.
  - right; left. split; [reflexivity|]. split; [reflexivity|].
    pose proof (destructure_fields _ _ Hd) as Hf. injection Hf as _ _ ->.
    eexists. split; [reflexivity|]. split; [reflexivity|]. auto.
  - right; left. split; [reflexivity|]. split; [reflexivity|].
    eexists. split; [reflexivity|]. split; [reflexivity|]. auto.
Qed.

(** X5. The five counts never exceed [total], and they add up to [total]
    exactly when every result carries one of the five status names (the
    comparison is exact: any other status is counted in [total] only). *)
Theorem summary_sum_iff results :
  clean (summarize results) + suspicious (summarize results)
  + spam (summarize results) + unavailable (summarize results)
  + no_snapshots (summarize results) <= total (summarize results)
  /\ (clean (summarize results) + suspicious (summarize results)
      + spam (summarize results) + unavailable (summarize results)
      + no_snapshots (summarize results) = total (summarize results)
      <-> Forall (fun r => terminalStatus (status r)) results).
Proof.
  split; [apply summary_sum_le|]. split; [|apply summary_sum_terminal].
  induction results as [|r results IH]; [constructor|].
  pose proof (summary_sum_le results) as Hle.
  cbn [summarize total clean suspicious spam unavailable no_snapshots] in *.
  rewrite !countStatus_cons. cbn [length]. unfold terminalStatus.
  repeat case_decide; intros Hsum.
  all: first [congruence | lia | constructor; [tauto | apply IH; lia]].
Qed.

(** X6. The summary does not depend on the order of the results, and the
    summary of two result lists put together is the sum of their summaries,
    count by count. *)
Theorem summary_order_independent results results' :
  results ≡ₚ results' ->
  summarize results = summarize results'
  /\ forall more,
       total (summarize (results ++ more))
       = total (summarize results) + total (summarize more)
       /\ clean (summarize (results ++ more))
          = clean (summarize results) + clean (summarize more)
       /\ suspicious (summarize (results ++ more))
          = suspicious (summarize results) + suspicious (summarize more)
       /\ spam (summarize (results ++ more))
          = spam (summarize results) + spam (summarize more)
       /\ unavailable (summarize (results ++ more))
          = unavailable (summarize results) + unavailable (summarize more)
       /\ no_snapshots (summarize (results ++ more))
          = no_snapshots (summarize results) + no_snapshots (summarize more).
Proof.
  intros Hperm. split.
  - unfold summarize, countStatus. rewrite !Hperm. reflexivity.
  - intros more. unfold summarize, countStatus.
    cbn [total clean suspicious spam unavailable no_snapshots].
    rewrite !filter_app, !length_app. auto 7.
Qed.

(** X7. The snapshot limit handed to the engine is never falsy: a truthy
    [maxSnapshots] is passed on as it is, whatever its type (it is not
    checked to be a number), and any falsy one (absent, [null], [0], [""],
    [false]) is replaced by 10. *)
Theorem limit_never_falsy req w :
  exists calls,
    engineCalls (snd (handler req w)) = engineCalls w ++ calls
    /\ Forall (fun call =>
                 truthy (callSnapshotsLimit call) = true
                 /\ callSnapshotsLimit call
                    = (if truthy (getProp (body req) "maxSnapshots")
                       then getProp (body req) "maxSnapshots"
                       else JNum 10)) calls.
Proof.
  eexists. split; [apply handler_engineCalls|].
  destruct (accepted req) as [fields|] eqn:Hacc; [|constructor].
  rewrite (accepted_fields _ _ Hacc). repeat constructor.
  cbn. unfold snapshotsLimitOf, js_or.
  destruct (truthy (getProp (body req) "maxSnapshots")) eqn:Ht;
    [exact Ht | reflexivity].
Qed.

(** X8. The response owes nothing to earlier requests: two process states
    with the same clock and the same number of earlier engine invocations
    give the same response, whatever their status maps and consoles hold. *)
Theorem response_ignores_store req w1 w2 :
  clockReads w1 = clockReads w2 ->
  length (engineCalls w1) = length (engineCalls w2) ->
  fst (handler req w1) = fst (handler req w2).
Proof.
  intros Hc He.
  assert (Hrun : forall fields, engineRunOf w1 fields = engineRunOf w2 fields)
    by (intros fields; unfold engineRunOf; rewrite He; reflexivity).
  by_paths req w1.
  - rewrite (handler_invalid req w2 _ _ _ Hm Hd Hr). cbn [fst].
    rewrite Hc. reflexivity.
  - rewrite Hrun in Hout. rewrite (handler_resolved req w2 _ _ Hacc Hout).
    cbn [fst]. unfold resolvedLogs, runningLogs. rewrite Hc, Hrun. reflexivity.
  - rewrite Hrun in Hout. rewrite (handler_rejected req w2 _ _ Hacc Hout).
    cbn [fst]. unfold rejectedLogs, runningLogs. rewrite Hc, Hrun. reflexivity.
  - rewrite (handler_unprintable req w2 _ _ _ Hm Hd Hr Hp). cbn [fst].
    unfold abortedLogs. rewrite Hc. reflexivity.
  - rewrite (handler_undestructurable req w2 Hm Hd). cbn [fst].
    unfold fatalLogs. rewrite Hc. reflexivity.
  - rewrite (handler_other_method req w2 Hm). reflexivity.
Qed.

Lemma stamp_types n level msgs :
  Forall (fun entry => type entry = level) (stamp clock n level msgs).
Proof.
  revert n. induction msgs as [|m msgs IH]; intros n; cbn;
    constructor; [reflexivity | apply IH].
Qed.

Lemma emitted_info n evs :
  Forall (fun entry => type entry = "info") (emitted clock n evs).
Proof.
  revert n. induction evs as [|[msg|domainStatus] evs IH]; intros n; cbn;
    [constructor | constructor; [reflexivity | apply IH] | apply IH].
Qed.

(** X9. The type of a log entry follows the outcome.  In a 200 response
    every entry is of type info (what the engine logs is always recorded
    as info) except the last, which is the one success entry and carries
    the completion message; in a 500 response no entry is of type success,
    and in a 400 response the single entry is of type error. *)
Theorem log_types_by_outcome req w logs :
  bodyLogs (json (fst (handler req w))) = Some logs ->
  (code (fst (handler req w)) = 200 ->
   exists summary earlier final,
     bodySummary (json (fst (handler req w))) = Some summary
     /\ logs = earlier ++ [final]
     /\ Forall (fun entry => type entry = "info") earlier
     /\ type final = "success"
     /\ message final = completeMessage summary)
  /\ (code (fst (handler req w)) = 500 ->
      Forall (fun entry => type entry <> "success") logs
      /\ exists entry, entry ∈ logs /\ type entry = "error")
  /\ (code (fst (handler req w)) = 400 ->
      Forall (fun entry => type entry = "error") logs).
Proof.
  by_paths req w; cbn [fst code json bodyLogs bodySummary];
    try discriminate; intros [= <-];
    (split; [|split]); try discriminate; intros _.
  - repeat constructor.
  - unfold resolvedLogs. cbn [stamp].
    eexists _, _, _. split; [reflexivity|]. split; [reflexivity|].
    split; [|split; reflexivity].
    unfold runningLogs. apply Forall_app_2; [apply stamp_types | apply emitted_info].
  - unfold rejectedLogs, runningLogs. split.
    + repeat apply Forall_app_2;
        (eapply Forall_impl;
         [first [apply stamp_types | apply emitted_info]
         |cbn; intros entry ->; discriminate]).
    + unfold errorMessages at 1. cbn [app stamp]. eexists. split.
      * apply elem_of_app. right. apply elem_of_cons. left. reflexivity.
      * reflexivity.
  - unfold abortedLogs. split.
    + apply Forall_app_2;
        (eapply Forall_impl;
         [apply stamp_types | cbn; intros entry ->; discriminate]).
    + unfold errorMessages. cbn [stamp]. eexists. split.
      * apply elem_of_app. right. apply elem_of_cons. left. reflexivity.
      * reflexivity.
  - unfold fatalLogs. split.
    + eapply Forall_impl; [apply stamp_types | cbn; intros entry ->; discriminate].
    + unfold errorMessages. cbn [stamp]. eexists. split.
      * apply elem_of_cons. left. reflexivity.
      * reflexivity.
Qed.

(** X10. The three entries that open the logs of a request that reaches
    the engine describe what the engine is given: the number of elements of
    the [domains] array, the number of stop words and the text of the
    snapshot limit of the very invocation the handler makes. *)
Theorem start_entries_describe_call req w fields logs :
  accepted req = Some fields ->
  bodyLogs (json (fst (handler req w))) = Some logs ->
  exists call text rest,
    engineCalls (snd (handler req w)) = engineCalls w ++ [call]
    /\ js_to_string (callSnapshotsLimit call) = Some text
    /\ map message logs
       = [ "Starting spam analysis for "
             +:+ nat_to_string (length (arrayItems (callDomains call)))
             +:+ " domain(s)";
           "Using " +:+ nat_to_string (length (callStopWords call))
             +:+ " stop words";
           "Max snapshots per domain: " +:+ text ] ++ rest
    /\ Forall (fun entry => type entry = "info") (take 3 logs).
Proof.
  intros Hacc. pose proof (accepted_printable _ _ Hacc) as Hp.
  destruct (outcome (engineRunOf w fields)) as [results|error] eqn:Hout;
    [rewrite (handler_resolved req w _ _ Hacc Hout)
    |rewrite (handler_rejected req w _ _ Hacc Hout)];
    cbn [fst snd json bodyLogs engineCalls]; intros [= <-];
    exists (engineCallOf fields), (limitText (snd fields));
    destruct fields as [[domains stopWords] maxSnapshots]; cbn [snd] in Hp.
  - unfold resolvedLogs, runningLogs.
    rewrite !map_app, stamp_messages, <- app_assoc.
    eexists. split; [reflexivity|]. split; [exact Hp|].
    split; [reflexivity|]. cbn. repeat constructor.
  - unfold rejectedLogs, runningLogs.
    rewrite !map_app, stamp_messages, <- app_assoc.
    eexists. split; [reflexivity|]. split; [exact Hp|].
    split; [reflexivity|]. cbn. repeat constructor.
Qed.

(** X11. A request whose snapshot limit cannot be turned into text (an
    object with an own [toString] property, or an array that holds one)
    fails at line 47, after the status map was cleared and two entries were
    logged: the answer is 500 with the conversion error's message, the
    engine is not invoked, and the statuses of earlier requests are gone. *)
Theorem unprintable_limit_fails req w :
  method req = "POST" ->
  (exists item items, getProp (body req) "domains" = JArr (item :: items)) ->
  js_to_string (snapshotsLimitOf (getProp (body req) "maxSnapshots")) = None ->
  code (fst (handler req w)) = 500
  /\ bodyMessage (json (fst (handler req w)))
     = errMessage (toPrimitiveError
                     (snapshotsLimitOf (getProp (body req) "maxSnapshots")))
  /\ (exists logs,
        bodyLogs (json (fst (handler req w))) = Some logs
        /\ map message logs
           = take 2 (startMessages
                       (getProp (body req) "domains",
                        getProp (body req) "stopWords",
                        getProp (body req) "maxSnapshots"))
             ++ errorMessages "❌ Fatal error: "
                  (toPrimitiveError
                     (snapshotsLimitOf (getProp (body req) "maxSnapshots"))))
  /\ engineCalls (snd (handler req w)) = engineCalls w
  /\ domainStatuses (snd (handler req w)) = ∅.
Proof.
  intros Hm (item & items & Hdomains) Hp.
  assert (Hd : destructure (body req)
               = Some (getProp (body req) "domains", getProp (body req) "stopWords",
                       getProp (body req) "maxSnapshots"))
    by (destruct (body req); cbn in Hdomains; try discriminate; reflexivity).
  assert (Hr : domainsRejected (getProp (body req) "domains") = false)
    by (rewrite Hdomains; reflexivity).
  rewrite (handler_unprintable req w _ _ _ Hm Hd Hr Hp).
  cbn [fst snd code json bodyMessage bodyLogs engineCalls domainStatuses].
  repeat split. eexists. split; [reflexivity|].
  unfold abortedLogs. rewrite map_app, !stamp_messages. reflexivity.
Qed.

(** X12. The request served alone is the schedule in which it arrives and
    then takes its steps with nothing in between: that schedule leaves the
    process in the state [handler] gives and the request answered with the
    response [handler] gives. *)
Theorem handler_is_uninterrupted_schedule req sv :
  exists steps,
    runSchedule (Arrive req :: replicate steps (Advance (length (slots sv)))) sv
    = mkServer (snd (handler req (world sv)))
        (slots sv ++ [Answered (fst (handler req (world sv)))]).
Proof.
  destruct (handler_alone req (world sv)) as (fuel & Hfuel).
  exists fuel.
  change (runSchedule (Arrive req :: ?rest) sv)
    with (runSchedule rest (act sv (Arrive req))).
  unfold act at 1.
  destruct (begin req (world sv)) as [progress w'].
  rewrite runSchedule_last, Hfuel.
  destruct (handler req (world sv)) as [response w'']. reflexivity.
Qed.

End Properties.

(** ** The claims on a concrete process

    Each statement with a hypothesis is applied to the sample process, which
    shows that its hypotheses can be met; the two claims the code does not
    satisfy are evaluated at the requests that show it. *)

Local Abbreviation on_sample thm :=
  (thm Sample.clock Sample.defaultStopWords Sample.parseStopWords
     Sample.combineStopWords Sample.engine Sample.typeError
     Sample.numberToString Sample.toPrimitiveError).



Lemma invalid_domains_rejected_witness :
  code (fst (Sample.handler Sample.emptyRequest Sample.busy)) = 400
  /\ engineCalls (snd (Sample.handler Sample.emptyRequest Sample.busy))
     = engineCalls Sample.busy
  /\ domainStatuses (snd (Sample.handler Sample.emptyRequest Sample.busy))
     = domainStatuses Sample.busy.
Proof.
  destruct (on_sample invalid_domains_rejected Sample.emptyRequest Sample.busy)
    as (Hrun & Hcalls & _ & Hstatuses).
  - reflexivity.
  - cbn. discriminate.
  - cbn. discriminate.
  - right; right. reflexivity.
  - unfold Sample.handler. rewrite Hrun. split; [reflexivity|].
    rewrite <- Hrun. split; [exact Hcalls | exact Hstatuses].
Defined.

(** C2, as stated, fails on a request that is not a POST (answered 405,
    without logs) and on a POST whose body is [null] (answered 500, with the
    entries of the outer [catch]). *)
Lemma invalid_domains_counterexample :
  (getProp (body Sample.getRequest) "domains" = JArr []
   /\ code (fst (Sample.handler Sample.getRequest Sample.idle)) = 405
   /\ bodyLogs (json (fst (Sample.handler Sample.getRequest Sample.idle))) = None)
  /\ (getProp (body Sample.nullBodyRequest) "domains" = JUndefined
      /\ code (fst (Sample.handler Sample.nullBodyRequest Sample.idle)) = 500
      /\ (map message <$>
          bodyLogs (json (fst (Sample.handler Sample.nullBodyRequest Sample.idle))))
         = Some ["❌ Fatal error: Cannot destructure property 'domains' of 'req.body' as it is null.";
                 "Stack: TypeError"]).
Proof. vm_compute. repeat split. Qed.

Lemma engine_failure_propagates_witness :
  code (fst (Sample.handler Sample.failingRequest Sample.idle)) = 500
  /\ bodyMessage (json (fst (Sample.handler Sample.failingRequest Sample.idle)))
     = Some "archive offline"
  /\ bodyResults (json (fst (Sample.handler Sample.failingRequest Sample.idle)))
     = None
  /\ bodySummary (json (fst (Sample.handler Sample.failingRequest Sample.idle)))
     = None.
Proof.
  destruct (on_sample engine_failure_propagates Sample.failingRequest Sample.idle
              (Sample.twoDomains, JUndefined, JStr "boom")
              (mkError (Some "archive offline") (Some "at fetch")
                 "Error: archive offline"))
    as (Hcode & _ & Hmessage & Hresults & Hsummary & _);
    [reflexivity | reflexivity |].
  unfold Sample.handler. auto.
Defined.



Lemma default_limits_witness :
  exists calls,
    engineCalls (snd (Sample.handler Sample.plainRequest Sample.idle)) = calls
    /\ Forall (fun call => callSnapshotsLimit call = JNum 10
                           /\ callMaxConcurrent call = 3%Z) calls
    /\ length calls = 1.
Proof.
  destruct (on_sample default_limits Sample.plainRequest Sample.idle)
    as (calls & Hcalls & Hlimits & Hone); [reflexivity|].
  exists calls. unfold Sample.handler. rewrite Hcalls.
  split; [reflexivity|]. split; [exact Hlimits|].
  apply (Hone (Sample.twoDomains, JUndefined, JUndefined)). reflexivity.
Defined.

Lemma stop_words_normalised_witness :
  Sample.combineStopWords (Sample.parseStopWords "pills,poker")
  = ["casino"; "viagra"; "pills"; "poker"]
  /\ finalStopWordsOf Sample.defaultStopWords Sample.parseStopWords
       Sample.combineStopWords (JStr "pills,poker")
     = ["casino"; "viagra"; "pills"; "poker"].
Proof.
  split; [reflexivity|].
  destruct (on_sample stop_words_normalised Sample.wordsRequest Sample.idle)
    as (_ & Hstring & _).
  rewrite Hstring; [reflexivity | discriminate].
Defined.

Lemma logs_append_only_witness :
  exists logs,
    bodyLogs (json (fst (Sample.handler Sample.plainRequest Sample.idle)))
    = Some logs
    /\ Forall knownLevel logs
    /\ stamped Sample.clock 0 logs
    /\ length logs = 5.
Proof.
  destruct (on_sample logs_append_only Sample.plainRequest Sample.idle)
    as (_ & _ & _ & Hlogs & _).
  eexists. split; [vm_compute; reflexivity|].
  split; [|split];
    [apply Hlogs; vm_compute; reflexivity
    |apply Hlogs; vm_compute; reflexivity
    |reflexivity].
Defined.

Lemma other_methods_refused_witness :
  Sample.handler Sample.getRequest Sample.busy
  = (mkResponse 405 (ErrorBody "Method not allowed"), Sample.busy).
Proof.
  destruct (on_sample other_methods_refused Sample.getRequest Sample.busy)
    as (Hrun & _); [cbn; discriminate|].
  exact Hrun.
Defined.

Lemma status_store_interleaved_witness :
  domainStatuses Sample.busy !! "a.example"
  = Some (mkStatus "a.example" "CLEAN" JNull)
  /\ domainStatuses (snd (Sample.handler Sample.getRequest Sample.busy))
     = domainStatuses Sample.busy
  /\ domainStatuses (snd (Sample.handler Sample.emptyRequest Sample.busy))
     = domainStatuses Sample.busy.
Proof.
  destruct (on_sample status_store_interleaved)
    as (Hkept & _ & _ & Hlatest & _).
  split; [|split].
  - unfold Sample.busy, Sample.handler.
    rewrite (Hlatest Sample.plainRequest Sample.idle
               (Sample.twoDomains, JUndefined, JUndefined) "a.example" eq_refl).
    reflexivity.
  - apply Hkept. left. reflexivity.
  - apply Hkept. right. reflexivity.
Defined.

(** C9, as stated, fails when two requests overlap.  Request A arrives and
    its engine reports a.example twice; request B arrives and clears the
    map, and its engine reports b.example; then A's promise settles.  When
    A is answered (200), the map has no entry for a.example, the domain
    whose last status A's callback reported as CLEAN, and holds b.example,
    which A's callback never reported. *)
Lemma status_store_counterexample :
  let sv := Sample.runSchedule
              [Arrive Sample.requestA; Advance 0; Advance 0; Advance 0;
               Arrive Sample.requestB; Advance 1; Advance 1; Advance 0]
              (mkServer Sample.idle []) in
  (code <$> (match slots sv !! 0 with
             | Some (Answered response) => Some response
             | _ => None
             end)) = Some 200
  /\ latest "a.example"
       (events (Sample.engine 0
                  (mkCall (JArr [JStr "a.example"]) Sample.defaultStopWords
                     (JNum 10) 3)))
     = Some (mkStatus "a.example" "CLEAN" JNull)
  /\ domainStatuses (world sv) !! "a.example" = None
  /\ domainStatuses (world sv) !! "b.example"
     = Some (mkStatus "b.example" "PENDING" JNull).
Proof. vm_compute. repeat split. Qed.

Lemma odd_stop_words_ignored_witness :
  Sample.handler Sample.oddWordsRequest Sample.idle
  = Sample.handler Sample.plainRequest Sample.idle.
Proof.
  destruct (on_sample odd_stop_words_ignored Sample.oddWordsRequest
              Sample.plainRequest Sample.idle Sample.twoDomains (JNum 7)
              JUndefined)
    as (_ & Hsame); [reflexivity | reflexivity | reflexivity | reflexivity
                    | reflexivity |].
  exact Hsame.
Defined.

Lemma missing_body_fails_witness :
  code (fst (Sample.handler Sample.nullBodyRequest Sample.busy)) = 500
  /\ engineCalls (snd (Sample.handler Sample.nullBodyRequest Sample.busy))
     = engineCalls Sample.busy
  /\ domainStatuses (snd (Sample.handler Sample.nullBodyRequest Sample.busy))
     = domainStatuses Sample.busy.
Proof.
  destruct (on_sample missing_body_fails Sample.nullBodyRequest Sample.busy)
    as (Hcode & _ & _ & _ & Hcalls & Hstatuses);
    [reflexivity | right; reflexivity |].
  unfold Sample.handler. auto.
Defined.

Lemma console_mirrors_logs_witness :
  exists logs,
    bodyLogs (json (fst (Sample.handler Sample.plainRequest Sample.idle)))
    = Some logs
    /\ console (snd (Sample.handler Sample.plainRequest Sample.idle))
       = map lineOf logs
    /\ clockReads (snd (Sample.handler Sample.plainRequest Sample.idle))
       = length logs.
Proof.
  eexists. split; [vm_compute; reflexivity|].
  destruct (on_sample console_mirrors_logs Sample.plainRequest Sample.idle _
              ltac:(vm_compute; reflexivity))
    as [(_ & Hconsole & Hclock) | [(Hcode & _) | (Hcode & _)]];
    [|vm_compute in Hcode; discriminate..].
  split; [exact Hconsole | exact Hclock].
Defined.

Lemma summary_order_independent_witness :
  summarize [mkStatus "a.example" "SPAM" JNull; mkStatus "b.example" "CLEAN" JNull]
  = summarize [mkStatus "b.example" "CLEAN" JNull; mkStatus "a.example" "SPAM" JNull].
Proof.
  destruct (summary_order_independent
              [mkStatus "a.example" "SPAM" JNull; mkStatus "b.example" "CLEAN" JNull]
              [mkStatus "b.example" "CLEAN" JNull; mkStatus "a.example" "SPAM" JNull])
    as (Hsame & _); [apply perm_swap | exact Hsame].
Defined.

Lemma response_ignores_store_witness :
  fst (Sample.handler Sample.plainRequest
         (mkWorld (domainStatuses Sample.busy) (console Sample.busy) 0 []))
  = fst (Sample.handler Sample.plainRequest Sample.idle).
Proof.
  apply (on_sample response_ignores_store); reflexivity.
Defined.

Lemma log_types_by_outcome_witness :
  exists logs earlier final,
    bodyLogs (json (fst (Sample.handler Sample.plainRequest Sample.idle)))
    = Some logs
    /\ logs = earlier ++ [final]
    /\ Forall (fun entry => type entry = "info") earlier
    /\ type final = "success".
Proof.
  eexists.
  destruct (on_sample log_types_by_outcome Sample.plainRequest Sample.idle _
              ltac:(vm_compute; reflexivity))
    as (Hok & _).
  destruct (Hok ltac:(vm_compute; reflexivity))
    as (summary & earlier & final & _ & Hlogs & Hinfo & Hfinal & _).
  exists earlier, final.
  split; [vm_compute; reflexivity|]. auto.
Defined.

Lemma start_entries_describe_call_witness :
  exists logs,
    bodyLogs (json (fst (Sample.handler Sample.wordsRequest Sample.idle)))
    = Some logs
    /\ take 3 (map message logs)
       = ["Starting spam analysis for 2 domain(s)"; "Using 3 stop words";
          "Max snapshots per domain: 10"].
Proof.
  eexists. split; [vm_compute; reflexivity|].
  destruct (on_sample start_entries_describe_call Sample.wordsRequest Sample.idle
              (Sample.twoDomains, JArr [JStr "pills"], JUndefined) _
              ltac:(vm_compute; reflexivity) ltac:(vm_compute; reflexivity))
    as (call & text & rest & Hcall & Htext & Hmessages & _).
  apply app_inv_head in Hcall. injection Hcall as <-.
  vm_compute in Htext. injection Htext as <-.
  rewrite Hmessages. reflexivity.
Defined.

Lemma unprintable_limit_fails_witness :
  code (fst (Sample.handler Sample.unprintableRequest Sample.busy)) = 500
  /\ engineCalls (snd (Sample.handler Sample.unprintableRequest Sample.busy))
     = engineCalls Sample.busy
  /\ domainStatuses (snd (Sample.handler Sample.unprintableRequest Sample.busy))
     = ∅.
Proof.
  destruct (on_sample unprintable_limit_fails Sample.unprintableRequest
              Sample.busy)
    as (Hcode & _ & _ & Hcalls & Hstore);
    [reflexivity | eexists _, _; reflexivity | reflexivity |].
  unfold Sample.handler. auto.
Defined.
